(** * Shallow embedding of the live_test signaling servers

    Two server variants live in the repository:
    - [src/unnamed/part_001] (the richer one: grace period for a disconnected
      broadcaster, rejoin, passwords, anchor mute), embedded in [Part001];
    - [src/server.js], which holds two revisions of a simpler server one
      after the other.  The second revision declares the [const]s of the
      first again at the top level of the same file, so the file never
      loads: [ServerJs] models its load, not an event loop.

    part_001 keeps four module-level [Map]s ([clients],
    [persistentIdToClientId], [rooms], [persistentIdToRoomId]); they are
    the fields of [State].
    Room objects are shared: the [rooms] Map holds references, and the
    reconnect timer of part_001 captures the room object itself.  Room
    objects therefore live in a heap [roomHeap] addressed by their id (every
    room is created under a fresh uuid that is also its [id], and an object is
    never re-stored under another key), and [rooms] is the insertion-ordered
    list of the keys the Map currently holds.  JavaScript [Set]s are
    insertion-ordered lists without duplicates.  A socket is named by the
    [clientId] of its connection; [outbox] records every [ws.send] in order.

    Identifiers ([persistentId], [targetId], [anchorId], room ids) are JSON
    strings or absent; absent reads as [undefined], written [None]. *)

From stdpp Require Import base gmap list strings.
From Stdlib Require Import ZArith.

Open Scope string_scope.
Open Scope list_scope.

(** ** JavaScript values *)

Module Js.

(** The values a JSON payload field can hold.  A nested object or array is
    a fresh reference after [JSON.parse], kept opaque ([JObj]). *)
Inductive jsval :=
| JUndefined
| JNull
| JBool (b : bool)
| JNum (z : Z)
| JStr (s : string)
| JObj (repr : string).

#[global] Instance jsval_eq_dec : EqDecision jsval.
Proof. solve_decision. Defined.

(** JavaScript truthiness. *)
Definition truthy (v : jsval) : bool :=
  match v with
  | JUndefined | JNull => false
  | JBool b => b
  | JNum z => negb (Z.eqb z 0)
  | JStr s => negb (bool_decide (s = ""))
  | JObj _ => true
  end.

(** [a || b]. *)
Definition js_or (a b : jsval) : jsval := if truthy a then a else b.

(** [a === b]; two distinct objects are never strictly equal. *)
Definition strict_eq (a b : jsval) : bool :=
  match a, b with
  | JUndefined, JUndefined | JNull, JNull => true
  | JBool x, JBool y => Bool.eqb x y
  | JNum x, JNum y => Z.eqb x y
  | JStr x, JStr y => bool_decide (x = y)
  | _, _ => false
  end.

(** A string identifier or [undefined]. *)
Abbreviation jsid := (option string).

Definition jsid_val (x : jsid) : jsval :=
  match x with Some s => JStr s | None => JUndefined end.

(** [if (x)] on a string-or-undefined value: the value when truthy. *)
Definition as_truthy (x : jsid) : jsid :=
  match x with
  | Some s => if bool_decide (s = "") then None else Some s
  | None => None
  end.

(** A parsed JSON object: its own properties in order, no duplicate key. *)
Abbreviation obj := (list (string * jsval)).

(** [o.k]; a missing property reads [undefined]. *)
Definition obj_get (o : obj) (k : string) : jsval :=
  match list_find (fun kv => kv.1 = k) o with
  | Some (_, (_, v)) => v
  | None => JUndefined
  end.

(** [{ ...o, [k]: v }]: an existing property keeps its position and takes
    the new value, a new one is appended. *)
Definition obj_set (k : string) (v : jsval) (o : obj) : obj :=
  if bool_decide (k ∈ o.*1)
  then map (fun kv => if bool_decide (kv.1 = k) then (kv.1, v) else kv) o
  else o ++ [(k, v)].

(** [JSON.stringify] followed by [JSON.parse] on the receiving side:
    properties whose value is [undefined] are dropped. *)
Definition json_roundtrip (o : obj) : obj :=
  filter (fun kv => kv.2 ≠ JUndefined) o.

End Js.

Import Js.

(** ** The server state *)

Module Model.

(** JavaScript [Set] of identifiers: insertion-ordered, no duplicates. *)
Definition set_has (x : jsid) (s : list jsid) : bool := bool_decide (x ∈ s).
Definition set_add (x : jsid) (s : list jsid) : list jsid :=
  if set_has x s then s else s ++ [x].
Definition set_delete (x : jsid) (s : list jsid) : list jsid :=
  filter (fun y => y ≠ x) s.

Inductive Role := Broadcaster | Viewer.

#[global] Instance role_eq_dec : EqDecision Role.
Proof. solve_decision. Defined.

(** The object stored in [clients]; its [ws] is the socket named by the key. *)
Record Client := mkClient {
  c_persistentId : jsid;
  c_username : option string;
  c_role : option Role
}.

Definition set_role (r : option Role) (c : Client) : Client :=
  mkClient c.(c_persistentId) c.(c_username) r.

(** A room object of part_001. *)
Record Room := mkRoom {
  r_id : string;
  r_name : option string;
  r_broadcasterId : jsid;
  r_viewers : list jsid;
  r_mutedViewers : list jsid;
  r_isAnchorMuted : jsval;
  r_status : jsval;
  r_reconnectTimeout : option nat;
  r_password : jsval
}.

Definition set_name n r := mkRoom r.(r_id) n r.(r_broadcasterId) r.(r_viewers)
  r.(r_mutedViewers) r.(r_isAnchorMuted) r.(r_status) r.(r_reconnectTimeout) r.(r_password).
Definition set_viewers vs r := mkRoom r.(r_id) r.(r_name) r.(r_broadcasterId) vs
  r.(r_mutedViewers) r.(r_isAnchorMuted) r.(r_status) r.(r_reconnectTimeout) r.(r_password).
Definition set_mutedViewers ms r := mkRoom r.(r_id) r.(r_name) r.(r_broadcasterId) r.(r_viewers)
  ms r.(r_isAnchorMuted) r.(r_status) r.(r_reconnectTimeout) r.(r_password).
Definition set_isAnchorMuted b r := mkRoom r.(r_id) r.(r_name) r.(r_broadcasterId) r.(r_viewers)
  r.(r_mutedViewers) b r.(r_status) r.(r_reconnectTimeout) r.(r_password).
Definition set_status s r := mkRoom r.(r_id) r.(r_name) r.(r_broadcasterId) r.(r_viewers)
  r.(r_mutedViewers) r.(r_isAnchorMuted) s r.(r_reconnectTimeout) r.(r_password).
Definition set_reconnectTimeout t r := mkRoom r.(r_id) r.(r_name) r.(r_broadcasterId) r.(r_viewers)
  r.(r_mutedViewers) r.(r_isAnchorMuted) r.(r_status) t r.(r_password).
Definition set_password p r := mkRoom r.(r_id) r.(r_name) r.(r_broadcasterId) r.(r_viewers)
  r.(r_mutedViewers) r.(r_isAnchorMuted) r.(r_status) r.(r_reconnectTimeout) p.

(** One entry of the [room-list] reply. *)
Record RoomListEntry := mkEntry {
  e_roomId : string;
  e_roomName : option string;
  e_broadcasterName : option string;
  e_viewerCount : nat;
  e_isPasswordProtected : option bool
}.

Inductive ErrorText := RoomNotFoundText | PasswordWrongText.

(** Server-to-client messages, with their payloads. *)
Inductive Out :=
| ORegistered (userId : string)
| ORoomCreated (roomId : string) (roomName : string)
| ORejoinRoomFailed
| ORoomRejoined (roomId : string) (roomName : option string)
| ORoomList (entries : list RoomListEntry)
| OError (message : ErrorText) (code : option string)
| OJoinedRoom (roomId : string)
| ONewViewer (viewerId : jsid) (username : option string) (isMuted : bool)
| OViewerMutedStatus (viewerId : jsid) (isMuted : bool)
| OAnchorMute (type : string) (anchorId : jsid) (isMuted : jsval)
| OViewerLeft (viewerId : jsid)
| OBroadcasterDisconnected (roomId : string)
| OBroadcasterRejoined (roomId : string) (broadcasterId : string)
| ORoomClosed (roomId : string)
| ORelay (type : string) (payload : obj)
| OKicked.

#[global] Instance entry_eq_dec : EqDecision RoomListEntry.
Proof. solve_decision. Defined.
#[global] Instance error_text_eq_dec : EqDecision ErrorText.
Proof. solve_decision. Defined.
#[global] Instance out_eq_dec : EqDecision Out.
Proof. solve_decision. Defined.

(** What a pending [setTimeout] callback does. *)
Inductive TimerAction :=
| TReconnect (roomId : string)     (* part_001, line 363 *)
| TKickClose (clientId : string).  (* line 538: targetClient.ws.close() *)

Record Timer := mkTimer { t_due : Z; t_action : TimerAction }.

Record State := mkState {
  clients : gmap string Client;
  persistentIdToClientId : gmap string string;
  roomHeap : gmap string Room;
  rooms : list string;
  persistentIdToRoomId : gmap jsid string;
  timers : gmap nat Timer;
  nextTimer : nat;
  now : Z;
  outbox : list (string * Out)
}.

Definition with_clients st m := mkState m st.(persistentIdToClientId) st.(roomHeap) st.(rooms)
  st.(persistentIdToRoomId) st.(timers) st.(nextTimer) st.(now) st.(outbox).
Definition with_p2c st m := mkState st.(clients) m st.(roomHeap) st.(rooms)
  st.(persistentIdToRoomId) st.(timers) st.(nextTimer) st.(now) st.(outbox).
Definition with_heap st h := mkState st.(clients) st.(persistentIdToClientId) h st.(rooms)
  st.(persistentIdToRoomId) st.(timers) st.(nextTimer) st.(now) st.(outbox).
Definition with_rooms st l := mkState st.(clients) st.(persistentIdToClientId) st.(roomHeap) l
  st.(persistentIdToRoomId) st.(timers) st.(nextTimer) st.(now) st.(outbox).
Definition with_p2r st m := mkState st.(clients) st.(persistentIdToClientId) st.(roomHeap) st.(rooms)
  m st.(timers) st.(nextTimer) st.(now) st.(outbox).
Definition with_timers st ts n := mkState st.(clients) st.(persistentIdToClientId) st.(roomHeap) st.(rooms)
  st.(persistentIdToRoomId) ts n st.(now) st.(outbox).
Definition with_now st t := mkState st.(clients) st.(persistentIdToClientId) st.(roomHeap) st.(rooms)
  st.(persistentIdToRoomId) st.(timers) st.(nextTimer) t st.(outbox).
Definition with_outbox st o := mkState st.(clients) st.(persistentIdToClientId) st.(roomHeap) st.(rooms)
  st.(persistentIdToRoomId) st.(timers) st.(nextTimer) st.(now) o.

Definition initial : State := mkState ∅ ∅ ∅ [] ∅ ∅ 0 0 [].

(** *** The Map and socket operations the handlers use *)

(** [ws.send(...)] on the socket of connection [c]. *)
Definition send (st : State) (c : string) (m : Out) : State :=
  with_outbox st (st.(outbox) ++ [(c, m)]).

(** Writing a field of the client object stored under [c]. *)
Definition client_put (st : State) (c : string) (ci : Client) : State :=
  with_clients st (<[c := ci]> st.(clients)).

Definition clients_delete (st : State) (c : string) : State :=
  with_clients st (delete c st.(clients)).

(** [persistentIdToClientId.get(k)]. *)
Definition p2c_get (st : State) (k : jsid) : option string :=
  k ≫= fun s => st.(persistentIdToClientId) !! s.

Definition p2c_set (st : State) (k : string) (c : string) : State :=
  with_p2c st (<[k := c]> st.(persistentIdToClientId)).

Definition p2c_delete (st : State) (k : jsid) : State :=
  match k with
  | Some s => with_p2c st (delete s st.(persistentIdToClientId))
  | None => st
  end.

(** [clients.get(persistentIdToClientId.get(k))]: the connection the
    identity currently resolves to, named by its key. *)
Definition resolve (st : State) (k : jsid) : option string :=
  match p2c_get st k with
  | Some c => match st.(clients) !! c with Some _ => Some c | None => None end
  | None => None
  end.

(** [rooms.get(roomId)]: the reference (heap address) and the object. *)
Definition rooms_get (st : State) (roomId : option string) : option (string * Room) :=
  match roomId with
  | Some r =>
      if bool_decide (r ∈ st.(rooms))
      then match st.(roomHeap) !! r with Some R => Some (r, R) | None => None end
      else None
  | None => None
  end.

(** Writing (all fields of) the room object at address [r]. *)
Definition heap_put (st : State) (r : string) (R : Room) : State :=
  with_heap st (<[r := R]> st.(roomHeap)).

Definition heap_update (st : State) (r : string) (f : Room -> Room) : State :=
  match st.(roomHeap) !! r with
  | Some R => heap_put st r (f R)
  | None => st
  end.

(** [rooms.set(r, R)]: a key already present keeps its position. *)
Definition rooms_set (st : State) (r : string) (R : Room) : State :=
  let st := heap_put st r R in
  if bool_decide (r ∈ st.(rooms)) then st else with_rooms st (st.(rooms) ++ [r]).

(** [rooms.delete(r)]: the object itself survives in the heap. *)
Definition rooms_delete (st : State) (r : string) : State :=
  with_rooms st (filter (fun x => x ≠ r) st.(rooms)).

Definition p2r_get (st : State) (k : jsid) : option string :=
  st.(persistentIdToRoomId) !! k.
Definition p2r_set (st : State) (k : jsid) (r : string) : State :=
  with_p2r st (<[k := r]> st.(persistentIdToRoomId)).
Definition p2r_delete (st : State) (k : jsid) : State :=
  with_p2r st (delete k st.(persistentIdToRoomId)).

(** [setTimeout(cb, ms)]: the handle is a fresh timer number. *)
Definition setTimeout (st : State) (ms : Z) (a : TimerAction) : State * nat :=
  let t := st.(nextTimer) in
  (with_timers st (<[t := mkTimer (st.(now) + ms) a]> st.(timers)) (S t), t).

Definition clearTimeout (st : State) (t : nat) : State :=
  with_timers st (delete t st.(timers)) st.(nextTimer).

(** [set.forEach(body)]. *)
Definition forEach {A} (l : list A) (body : State -> A -> State) (st : State) : State :=
  fold_left body l st.

(** Errors a handler can throw; uncaught, they end the process. *)
Inductive Exn := ReferenceError (name : string) | TypeError (what : string).

Inductive Outcome := Ok (st : State) | Throw (e : Exn) (st : State).

(** The process: running, or ended by an uncaught exception (the state is
    the one at the throw; everything in its outbox was sent). *)
Inductive Server := Running (st : State) | Crashed (e : Exn) (st : State).

Inductive RelayKind := Offer | Answer | Candidate.
Definition relay_type (k : RelayKind) : string :=
  match k with Offer => "offer" | Answer => "answer" | Candidate => "candidate" end.

Inductive AnchorKind := AnchorMute | AnchorUnmute.
Definition anchor_type (k : AnchorKind) : string :=
  match k with AnchorMute => "live.anchor.mute" | AnchorUnmute => "live.anchor.unmute" end.

(** Client-to-server envelopes [{type, payload}], payload fields as parsed.
    [MCreateRoom] also carries the uuid that [uuidv4()] returns. *)
Inductive Msg :=
| MRegister (persistentId username : option string)
| MCreateRoom (roomName : option string) (password : jsval) (fresh : string)
| MRejoinRoom (roomId roomName : option string) (password : jsval)
| MListRooms
| MJoinRoom (roomId : option string) (password : jsval)
| MLeaveRoom
| MMuteViewer (targetId : jsid)
| MUnmuteViewer (targetId : jsid)
| MRelay (k : RelayKind) (payload : obj)
| MKickUser (targetId : jsid)
| MAnchorMute (k : AnchorKind) (anchorId : jsid) (isMuted : jsval)
| MUnknown (type : string).

(** Events of the environment: a socket opens (with its fresh uuid),
    a message arrives, a socket closes, time passes, a due timer fires. *)
Inductive Event :=
| EConnect (clientId : string)
| EMessage (clientId : string) (m : Msg)
| EClose (clientId : string)
| EAdvance (ms : N)
| EFire (t : nat).

End Model.

Import Model.

(** ** Handlers of part_001 whose code server.js repeats

    A handler receives the connection key [cid] and the client object [ci]
    the dispatcher read from [clients] ([clientInfo] in the source). *)

Module Handlers.

(** [handleRegistration] (part_001 119-138, server.js 83-96); the
    [iceServers] list part_001 adds to the reply is a constant and omitted. *)
Definition handleRegistration (cid : string) (ci : Client)
    (persistentId username : option string) (st : State) : State :=
  match as_truthy persistentId, as_truthy username with
  | Some p, Some u =>
      let st := client_put st cid (mkClient (Some p) (Some u) ci.(c_role)) in
      let st := p2c_set st p cid in
      send st cid (ORegistered p)
  | _, _ => st
  end.

(** [handleLeaveRoom] (part_001 305-324, server.js 167-186). *)
Definition handleLeaveRoom (cid : string) (ci : Client) (st : State) : State :=
  let viewerId := ci.(c_persistentId) in
  match as_truthy (p2r_get st viewerId) with
  | None => st
  | Some roomId =>
      let st :=
        match rooms_get st (Some roomId) with
        | Some (r, room) =>
            (* mutedViewers is left as it is *)
            let st := heap_put st r (set_viewers (set_delete viewerId room.(r_viewers)) room) in
            match resolve st room.(r_broadcasterId) with
            | Some bc => send st bc (OViewerLeft viewerId)
            | None => st
            end
        | None => st
        end in
      let st := p2r_delete st viewerId in
      client_put st cid (set_role None ci)
  end.

(** The guard shared by mute, unmute and kick: the room the caller's
    identity is indexed to, when the caller is its broadcaster and the
    target is one of its viewers. *)
Definition ownedRoomWithViewer (st : State) (ci : Client) (targetId : jsid)
    : option (string * Room) :=
  match rooms_get st (p2r_get st ci.(c_persistentId)) with
  | Some (r, room) =>
      if bool_decide (room.(r_broadcasterId) ≠ ci.(c_persistentId)) then None
      else if negb (set_has targetId room.(r_viewers)) then None
      else Some (r, room)
  | None => None
  end.

(** [handleMuteViewer] (part_001 403-427, server.js 233-255). *)
Definition handleMuteViewer (cid : string) (ci : Client) (targetId : jsid) (st : State) : State :=
  match ownedRoomWithViewer st ci targetId with
  | None => st
  | Some (r, room) =>
      let st := heap_put st r (set_mutedViewers (set_add targetId room.(r_mutedViewers)) room) in
      let st := match resolve st targetId with
                | Some tc => send st tc (OViewerMutedStatus targetId true)
                | None => st
                end in
      send st cid (OViewerMutedStatus targetId true)
  end.

(** [handleUnmuteViewer] (part_001 434-458, server.js 257-279). *)
Definition handleUnmuteViewer (cid : string) (ci : Client) (targetId : jsid) (st : State) : State :=
  match ownedRoomWithViewer st ci targetId with
  | None => st
  | Some (r, room) =>
      let st := heap_put st r (set_mutedViewers (set_delete targetId room.(r_mutedViewers)) room) in
      let st := match resolve st targetId with
                | Some tc => send st tc (OViewerMutedStatus targetId false)
                | None => st
                end in
      send st cid (OViewerMutedStatus targetId false)
  end.

(** [routeP2PMessage] (part_001 496-510, server.js 281-295). *)
Definition routeP2PMessage (senderId : jsid) (type : string) (payload : obj) (st : State) : State :=
  let targetId := obj_get payload "targetId" in
  if negb (truthy targetId) then st
  else
    let targetClientId := match targetId with
                          | JStr s => st.(persistentIdToClientId) !! s
                          | _ => None
                          end in
    match targetClientId ≫= fun c => st.(clients) !! c with
    | Some _ =>
        let outboundPayload := obj_set "senderId" (jsid_val senderId) payload in
        match targetClientId with
        | Some tc => send st tc (ORelay type (json_roundtrip outboundPayload))
        | None => st
        end
    | None => st
    end.

(** The kick-close delay, 100 ms (line 540). *)
Definition KICK_CLOSE_DELAY_MS : Z := 100.

(** [handleKickUser] (part_001 517-544, server.js 297-...). *)
Definition handleKickUser (cid : string) (ci : Client) (targetId : jsid) (st : State) : State :=
  match ownedRoomWithViewer st ci targetId with
  | None => st
  | Some _ =>
      match resolve st targetId with
      | Some tc =>
          let st := send st tc OKicked in
          fst (setTimeout st KICK_CLOSE_DELAY_MS (TKickClose tc))
      | None => st
      end
  end.

End Handlers.

Import Handlers.

(** ** src/unnamed/part_001 *)

Module Part001.

(** [RECONNECT_TIMEOUT_MS] (line 17). *)
Definition RECONNECT_TIMEOUT_MS : Z := 20000.

(** [handleCreateRoom] (lines 145-171); [roomId] is the value [uuidv4()]
    returned. *)
Definition handleCreateRoom (cid : string) (ci : Client) (roomName : option string)
    (password : jsval) (roomId : string) (st : State) : State :=
  match as_truthy roomName with
  | None => st
  | Some name =>
      let broadcasterId := ci.(c_persistentId) in
      let newRoom := mkRoom roomId (Some name) broadcasterId [] [] (JBool false)
                       (JStr "active") None (js_or password JNull) in
      let st := rooms_set st roomId newRoom in
      let st := p2r_set st broadcasterId roomId in
      let st := client_put st cid (set_role (Some Broadcaster) ci) in
      send st cid (ORoomCreated roomId name)
  end.

(** [handleRejoinRoom] (lines 178-225).  The writes to the room object
    (name, password, reconnectTimeout, status) are made in order on one
    object and nothing reads it in between, so the object is written once. *)
Definition handleRejoinRoom (cid : string) (ci : Client) (roomId roomName : option string)
    (password : jsval) (st : State) : State :=
  match as_truthy ci.(c_persistentId) with
  | None => st
  | Some persistentId =>
      match rooms_get st roomId with
      | None => send st cid ORejoinRoomFailed
      | Some (r, room) =>
          if bool_decide (room.(r_broadcasterId) ≠ Some persistentId)
          then send st cid ORejoinRoomFailed
          else
            let st := p2c_set st persistentId cid in
            let st := client_put st cid (set_role (Some Broadcaster) ci) in
            let room := if bool_decide (room.(r_name) ≠ roomName) then set_name roomName room else room in
            let room := set_password (js_or password JNull) room in
            let '(st, room) :=
              match room.(r_reconnectTimeout) with
              | Some t => (clearTimeout st t, set_reconnectTimeout None room)
              | None => (st, room)
              end in
            let room := set_status (JStr "active") room in
            let st := heap_put st r room in
            let st := send st cid (ORoomRejoined room.(r_id) room.(r_name)) in
            forEach room.(r_viewers) (fun st viewerPersistentId =>
              match resolve st viewerPersistentId with
              | Some vc =>
                  if bool_decide (viewerPersistentId ≠ Some persistentId)
                  then send st vc (OBroadcasterRejoined room.(r_id) persistentId)
                  else st
              | None => st
              end) st
      end
  end.

(** [handleListRooms] (lines 230-242). *)
Definition roomListEntry (st : State) (room : Room) : RoomListEntry :=
  mkEntry room.(r_id) room.(r_name)
    (resolve st room.(r_broadcasterId) ≫= fun c => st.(clients) !! c ≫= c_username)
    (length room.(r_viewers))
    (Some (negb (strict_eq room.(r_password) JNull))).

Definition listRooms (st : State) : list RoomListEntry :=
  omap (fun r => roomListEntry st <$> st.(roomHeap) !! r) st.(rooms).

Definition handleListRooms (cid : string) (st : State) : State :=
  send st cid (ORoomList (listRooms st)).

(** The module scope of part_001: its [const] and [function] declarations. *)
Definition module_scope : list string :=
  ["WebSocket"; "uuidv4"; "config"; "PORT"; "wss"; "RECONNECT_TIMEOUT_MS";
   "clients"; "persistentIdToClientId"; "rooms"; "persistentIdToRoomId";
   "handleRegistration"; "handleCreateRoom"; "handleRejoinRoom";
   "handleListRooms"; "handleJoinRoom"; "handleLeaveRoom"; "handleDisconnect";
   "handleMuteViewer"; "handleUnmuteViewer"; "handleAnchorMuteStatus";
   "routeP2PMessage"; "handleKickUser"].

(** The bindings visible in the body of [handleJoinRoom]: its parameters,
    its own [const]s, and the module scope. *)
Definition handleJoinRoom_scope : list string :=
  ["clientInfo"; "payload"; "viewerId"; "broadcasterClient"] ++ module_scope.

(** The password guard of line 256. *)
Definition passwordRejected (room : Room) (password : jsval) : bool :=
  negb (strict_eq room.(r_password) JNull) && negb (strict_eq room.(r_password) password).

(** [handleJoinRoom] (lines 249-299).  Its first statement evaluates
    [!room]; no enclosing scope declares [room] (nor [roomId], [password]),
    so the evaluation throws a [ReferenceError] before anything else runs,
    whatever the payload ([room_not_in_scope] below checks the scope). *)
Definition handleJoinRoom (cid : string) (ci : Client) (roomId : option string)
    (password : jsval) (st : State) : Outcome :=
  Throw (ReferenceError "room") st.

(** The body of the reconnect timer (lines 363-375); [room] is the object
    captured when the timer was set, read at fire time. *)
Definition reconnectTimeoutFired (roomId : string) (st : State) : State :=
  match st.(roomHeap) !! roomId with
  | None => st
  | Some room =>
      let st := forEach room.(r_viewers) (fun st viewerId =>
                  match resolve st viewerId with
                  | Some vc => p2r_delete (send st vc (ORoomClosed roomId)) viewerId
                  | None => st
                  end) st in
      rooms_delete st roomId
  end.

(** [handleDisconnect] (lines 330-396). *)
Definition handleDisconnect (clientId : string) (st : State) : State :=
  match st.(clients) !! clientId with
  | None => clients_delete st clientId
  | Some ci =>
      match as_truthy ci.(c_persistentId) with
      | None => clients_delete st clientId
      | Some persistentId =>
          let roomId := as_truthy (p2r_get st (Some persistentId)) in
          let finish st := p2c_delete (clients_delete st clientId) (Some persistentId) in
          match ci.(c_role), roomId with
          | Some Broadcaster, Some rid =>
              match rooms_get st (Some rid) with
              | None => st  (* line 347: early return *)
              | Some (r, room) =>
                  let room := set_status (JStr "pending_rejoin") room in
                  let st := heap_put st r room in
                  let st := forEach room.(r_viewers) (fun st viewerId =>
                              match resolve st viewerId with
                              | Some vc => send st vc (OBroadcasterDisconnected rid)
                              | None => st
                              end) st in
                  let '(st, t) := setTimeout st RECONNECT_TIMEOUT_MS (TReconnect rid) in
                  let st := heap_update st r (set_reconnectTimeout (Some t)) in
                  finish st
              end
          | Some Viewer, Some rid =>
              let st :=
                match rooms_get st (Some rid) with
                | Some (r, room) =>
                    let room := set_mutedViewers (set_delete (Some persistentId) room.(r_mutedViewers))
                                  (set_viewers (set_delete (Some persistentId) room.(r_viewers)) room) in
                    let st := heap_put st r room in
                    match resolve st room.(r_broadcasterId) with
                    | Some bc => send st bc (OViewerLeft (Some persistentId))
                    | None => st
                    end
                | None => st
                end in
              finish (p2r_delete st (Some persistentId))
          | _, _ => finish st
          end
      end
  end.

(** [handleAnchorMuteStatus] (lines 467-489).  The caller [cid] is not
    consulted. *)
Definition handleAnchorMuteStatus (cid : string) (type : string) (anchorId : jsid)
    (isMuted : jsval) (st : State) : State :=
  match rooms_get st (p2r_get st anchorId) with
  | None => st
  | Some (r, room) =>
      if bool_decide (room.(r_broadcasterId) ≠ anchorId) then st
      else
        let room := set_isAnchorMuted isMuted room in
        let st := heap_put st r room in
        forEach room.(r_viewers) (fun st viewerId =>
          match resolve st viewerId with
          | Some vc => send st vc (OAnchorMute type anchorId isMuted)
          | None => st
          end) st
  end.

(** The [message] listener (lines 41-104). *)
Definition dispatch (cid : string) (m : Msg) (st : State) : Outcome :=
  match st.(clients) !! cid with
  | None => Ok st
  | Some ci =>
      match m with
      | MRegister p u => Ok (handleRegistration cid ci p u st)
      | MCreateRoom n pw fresh => Ok (handleCreateRoom cid ci n pw fresh st)
      | MRejoinRoom rid n pw => Ok (handleRejoinRoom cid ci rid n pw st)
      | MListRooms => Ok (handleListRooms cid st)
      | MJoinRoom rid pw => handleJoinRoom cid ci rid pw st
      | MLeaveRoom => Ok (handleLeaveRoom cid ci st)
      | MMuteViewer t => Ok (handleMuteViewer cid ci t st)
      | MUnmuteViewer t => Ok (handleUnmuteViewer cid ci t st)
      | MRelay k p => Ok (routeP2PMessage ci.(c_persistentId) (relay_type k) p st)
      | MKickUser t => Ok (handleKickUser cid ci t st)
      | MAnchorMute k a b => Ok (handleAnchorMuteStatus cid (anchor_type k) a b st)
      | MUnknown _ => Ok st
      end
  end.

Definition fire (a : TimerAction) (st : State) : State :=
  match a with
  | TReconnect rid => reconnectTimeoutFired rid st
  | TKickClose c => handleDisconnect c st  (* the close event of ws.close() *)
  end.

Definition step (s : Server) (e : Event) : Server :=
  match s with
  | Crashed _ _ => s
  | Running st =>
      match e with
      | EConnect cid => Running (client_put st cid (mkClient None None None))
      | EMessage cid m =>
          match dispatch cid m st with
          | Ok st' => Running st'
          | Throw ex st' => Crashed ex st'
          end
      | EClose cid => Running (handleDisconnect cid st)
      | EAdvance ms => Running (with_now st (st.(now) + Z.of_N ms))
      | EFire t =>
          match st.(timers) !! t with
          | Some tm =>
              if bool_decide (tm.(t_due) <= st.(now))%Z
              then Running (fire tm.(t_action) (with_timers st (delete t st.(timers)) st.(nextTimer)))
              else s
          | None => s
          end
      end
  end.

Definition run (s : Server) (es : list Event) : Server := fold_left step es s.

End Part001.

(** ** src/server.js

    Node runs a CommonJS file as the body of one function, and parses that
    body whole before it runs any statement of it.  A name declared with
    [const] (or [let], [class]) may be declared only once in its scope, and
    not also with [var] or as a function: a second declaration is an early
    SyntaxError, raised at parse time.  src/server.js declares
    [const WebSocket] at line 1 and again at line 352, where the second
    revision of the server starts; loading the file throws that
    SyntaxError, no statement runs, and no server listens. *)

Module ServerJs.

(** [const], [let] and [class] declare lexically; [var] and function
    declarations at the top of a function body are var-scoped. *)
Inductive DeclKind := Lexical | VarScoped.

Definition is_lexical (k : DeclKind) : bool :=
  match k with Lexical => true | VarScoped => false end.

(** A top-level declaration of the file: the name, how it is declared, the
    line. *)
Record Decl := mkDecl { d_name : string; d_kind : DeclKind; d_line : nat }.

(** The top-level declarations of src/server.js, in source order
    ([const { v4: uuidv4 }] declares [uuidv4]). *)
Definition declarations : list Decl :=
  [mkDecl "WebSocket" Lexical 1; mkDecl "uuidv4" Lexical 2; mkDecl "PORT" Lexical 4;
   mkDecl "wss" Lexical 5; mkDecl "clients" Lexical 8;
   mkDecl "persistentIdToClientId" Lexical 9; mkDecl "rooms" Lexical 10;
   mkDecl "persistentIdToRoomId" Lexical 11;
   mkDecl "handleRegistration" VarScoped 83; mkDecl "handleCreateRoom" VarScoped 98;
   mkDecl "handleListRooms" VarScoped 120; mkDecl "handleJoinRoom" VarScoped 130;
   mkDecl "handleLeaveRoom" VarScoped 167; mkDecl "handleDisconnect" VarScoped 188;
   mkDecl "handleMuteViewer" VarScoped 233; mkDecl "handleUnmuteViewer" VarScoped 257;
   mkDecl "routeP2PMessage" VarScoped 281; mkDecl "handleKickUser" VarScoped 297;
   mkDecl "WebSocket" Lexical 352; mkDecl "uuidv4" Lexical 353; mkDecl "PORT" Lexical 355;
   mkDecl "wss" Lexical 356; mkDecl "clients" Lexical 359;
   mkDecl "persistentIdToClientId" Lexical 360; mkDecl "rooms" Lexical 361;
   mkDecl "persistentIdToRoomId" Lexical 362;
   mkDecl "handleRegistration" VarScoped 426; mkDecl "handleCreateRoom" VarScoped 441;
   mkDecl "handleListRooms" VarScoped 462; mkDecl "handleJoinRoom" VarScoped 472;
   mkDecl "handleLeaveRoom" VarScoped 497; mkDecl "handleDisconnect" VarScoped 517;
   mkDecl "routeP2PMessage" VarScoped 547; mkDecl "handleKickUser" VarScoped 563].

(** The first declaration, in source order, that redeclares a name declared
    before it ([seen]) when one of the two is lexical. *)
Fixpoint first_redeclaration (seen ds : list Decl) : option Decl :=
  match ds with
  | [] => None
  | d :: ds' =>
      if existsb (fun d' => bool_decide (d'.(d_name) = d.(d_name)) &&
                            (is_lexical d.(d_kind) || is_lexical d'.(d_kind))) seen
      then Some d
      else first_redeclaration (d :: seen) ds'
  end.

Inductive Load := LoadSyntaxError (name : string) (line : nat) | Loaded.

(** [node src/server.js]: the early error, if any, before anything runs. *)
Definition load : Load :=
  match first_redeclaration [] declarations with
  | Some d => LoadSyntaxError d.(d_name) d.(d_line)
  | None => Loaded
  end.

End ServerJs.

(** ** Scenarios and properties *)

Module Props.

(** The state of a running server, after [f]. *)
Definition observe {A} (s : Server) (f : State -> A) : option A :=
  match s with Running st => Some (f st) | Crashed _ _ => None end.

(** The room object at key [r] of the [rooms] Map. *)
Definition live_room (st : State) (r : string) : option Room :=
  if bool_decide (r ∈ st.(rooms)) then st.(roomHeap) !! r else None.

(** mutedViewers ⊆ viewers, for every room of the Map. *)
Definition muted_sub (st : State) : Prop :=
  ∀ r R x, live_room st r = Some R → x ∈ R.(r_mutedViewers) → x ∈ R.(r_viewers).

(** No identity is a viewer of two rooms of the Map. *)
Definition no_overlap (st : State) : Prop :=
  ∀ r1 r2 R1 R2 x, r1 ≠ r2 → live_room st r1 = Some R1 → live_room st r2 = Some R2 →
    x ∈ R1.(r_viewers) → x ∉ R2.(r_viewers).

(** *** What holds in every state part_001 reaches *)

(** A reconnect handle stored in room [r]: it was issued (it is below
    [nextTimer]), and while it is pending it is the reconnect timer of [r]. *)
Definition timer_ok (st : State) (r : string) (o : option nat) : Prop :=
  ∀ t, o = Some t → (t < st.(nextTimer))%nat ∧
    ∀ tm, st.(timers) !! t = Some tm → tm.(t_action) = TReconnect r.

(** A room object at address [r]: no viewer and no muted viewer (only the
    join-room handler adds viewers, and it always throws), its [id] is [r],
    and its reconnect handle is one of its own timers. *)
Definition room_ok (st : State) (r : string) (R : Room) : Prop :=
  R.(r_viewers) = [] ∧ R.(r_mutedViewers) = [] ∧ R.(r_id) = r ∧
  timer_ok st r R.(r_reconnectTimeout).

(** The two notices part_001 sends to viewers only. *)
Definition viewer_notice (m : Out) : bool :=
  match m with ORoomClosed _ | OBroadcasterRejoined _ _ => true | _ => false end.

(** The invariant of part_001: every room object is [room_ok], every key of
    the Map has an object, every pending timer was issued, and no viewer
    notice was ever sent. *)
Definition p001_inv (st : State) : Prop :=
  (∀ r R, st.(roomHeap) !! r = Some R → room_ok st r R) ∧
  (∀ r, r ∈ st.(rooms) → is_Some (st.(roomHeap) !! r)) ∧
  (∀ t, is_Some (st.(timers) !! t) → (t < st.(nextTimer))%nat) ∧
  Forall (fun x => viewer_notice x.2 = false) st.(outbox).



(** *** Scenarios *)

(** Broadcaster "bc" on socket s1 owns room "R" (name "X"; [uuidv4()]
    returned "R"); "v" is registered on socket sv. *)
Definition setup_events : list Event :=
  [EConnect "s1"; EMessage "s1" (MRegister (Some "bc") (Some "B"));
   EMessage "s1" (MCreateRoom (Some "X") JUndefined "R");
   EConnect "sv"; EMessage "sv" (MRegister (Some "v") (Some "V"))].

Definition part001_setup : State :=
  match Part001.run (Running initial) setup_events with
  | Running st => st | Crashed _ st => st
  end.

(** "bc" opens a second socket s2 and rejoins "R" there; s1 closes at
    time 0, s2 closes at 5 s; at 10 s "bc" rejoins on s3.  [rejoin_upto]
    events lead to that last rejoin, then 10 s pass and timer 0 fires. *)
Definition double_disconnect_events : list Event :=
  [EConnect "s2"; EMessage "s2" (MRegister (Some "bc") (Some "B"));
   EMessage "s2" (MRejoinRoom (Some "R") (Some "X") JUndefined);
   EClose "s1"; EAdvance 5000; EClose "s2"; EAdvance 5000;
   EConnect "s3"; EMessage "s3" (MRegister (Some "bc") (Some "B"));
   EMessage "s3" (MRejoinRoom (Some "R") (Some "X") JUndefined);
   EAdvance 10000; EFire 0].

Definition rejoin_upto : nat := 10.

(** "x" on s2, not the broadcaster, sends live.anchor.mute naming "bc". *)
Definition foreign_anchor_mute_events : list Event :=
  setup_events ++
  [EConnect "s2"; EMessage "s2" (MRegister (Some "x") (Some "Mallory"));
   EMessage "s2" (MAnchorMute AnchorMute (Some "bc") (JBool true))].

(** "v" registers on s1, re-registers on s2, then the old socket s1 closes. *)
Definition stale_close_events : list Event :=
  [EConnect "s1"; EMessage "s1" (MRegister (Some "v") (Some "V"));
   EConnect "s2"; EMessage "s2" (MRegister (Some "v") (Some "V"));
   EClose "s1"].

Definition dummy_room : Room := mkRoom "" None None [] [] JUndefined JUndefined None JUndefined.
Definition dummy_client : Client := mkClient None None None.

(** The room "R" of [part001_setup] and the client object of "bc". *)
Definition p001_room : Room := default dummy_room (part001_setup.(roomHeap) !! "R").
Definition p001_bc : Client := default dummy_client (part001_setup.(clients) !! "s1").

(** The connection a relay is delivered to: the one the payload's
    [targetId] resolves to, when it is a non-empty string. *)
Definition relay_target (st : State) (p : obj) : option string :=
  match obj_get p "targetId" with
  | JStr s => if bool_decide (s = "") then None else resolve st (Some s)
  | _ => None
  end.

(** part_001: "bc" relays an offer to "v" whose payload carries its own
    [senderId] field. *)
Definition spoofed_offer : obj :=
  [("targetId", JStr "v"); ("senderId", JStr "X"); ("sdp", JStr "o")].

(** part_001: "bc" on s1 owns room "R", created with password "secret". *)
Definition locked_setup : State :=
  match Part001.run (Running initial)
          [EConnect "s1"; EMessage "s1" (MRegister (Some "bc") (Some "B"));
           EMessage "s1" (MCreateRoom (Some "X") (JStr "secret") "R")] with
  | Running st => st | Crashed _ st => st
  end.
Definition locked_room : Room := default dummy_room (locked_setup.(roomHeap) !! "R").
Definition locked_bc : Client := default dummy_client (locked_setup.(clients) !! "s1").

(** The early return of line 347: a broadcaster whose indexed room is no
    longer in the Map. *)
Definition Part001_early_return (st : State) (ci : Client) (p : string) : Prop :=
  ci.(c_role) = Some Broadcaster ∧
  ∃ rid, as_truthy (p2r_get st (Some p)) = Some rid ∧ rooms_get st (Some rid) = None.

Definition stale_close_before : State :=
  match Part001.run (Running initial) (firstn 4 stale_close_events) with
  | Running st => st | Crashed _ st => st
  end.


(** The messages a [viewers.forEach] broadcast of [m] sends: one to each
    entry of [l] that resolves to a connection, in the order of [l]. *)
Definition notices (st : State) (l : list jsid) (m : Out) : list (string * Out) :=
  omap (fun v => (fun vc => (vc, m)) <$> resolve st v) l.

(** Two states that agree on everything but the outbox and the clock. *)
Definition same_but_outbox (s s' : State) : Prop :=
  s'.(clients) = s.(clients) ∧ s'.(persistentIdToClientId) = s.(persistentIdToClientId) ∧
  s'.(roomHeap) = s.(roomHeap) ∧ s'.(rooms) = s.(rooms) ∧
  s'.(persistentIdToRoomId) = s.(persistentIdToRoomId) ∧ s'.(timers) = s.(timers).

(** part_001: [part001_setup] with one more open connection s2. *)
Definition p001_with_s2 : State :=
  match Part001.run (Running initial) (setup_events ++ [EConnect "s2"]) with
  | Running st => st | Crashed _ st => st
  end.

End Props.


Import Props.

Ltac bd_case P :=
  destruct (decide P);
  [rewrite (bool_decide_eq_true_2 P) by assumption | rewrite (bool_decide_eq_false_2 P) by assumption].

Ltac frame_tac := repeat (case_match || case_bool_decide); split; reflexivity.

Ltac lit_in Hnin :=
  exfalso; apply Hnin; repeat match goal with Hd : _ ∨ _ |- _ => destruct Hd end;
  subst; apply (bool_decide_unpack _); vm_compute; reflexivity.

(** A side condition at a concrete state: an equation that evaluates, or a
    decidable proposition. *)
Ltac wit := first [ vm_compute; reflexivity | apply (bool_decide_unpack _); vm_compute; reflexivity ].

(** * Theorems *)

Lemma room_not_in_scope :
  ("room" ∉ Part001.handleJoinRoom_scope) ∧ ("roomId" ∉ Part001.handleJoinRoom_scope) ∧
  ("password" ∉ Part001.handleJoinRoom_scope).
Proof. repeat split; intros H; repeat (apply elem_of_cons in H as [H|H]; [discriminate H|]); exact (not_elem_of_nil _ H). Qed.

(** ** Broadcaster grace period (part_001) *)

(** C8 (code_bug): the same timing without viewers, from a fresh server.
    Line 363 overwrites [room.reconnectTimeout] without clearing the timer
    it held, and the callback does not re-check the status: after the
    valid rejoin at 10 s, timer 0 fires at 20 s and removes room "R" while
    its status is "active" and its broadcaster is connected on s3. *)
Theorem c8_timer_removes_active_room :
  observe (Part001.run (Running initial) (setup_events ++ firstn rejoin_upto double_disconnect_events))
    (fun st => (st.(now), st.(rooms), r_status <$> st.(roomHeap) !! "R",
                (fun tm => tm.(t_due)) <$> st.(timers) !! 0%nat, resolve st (Some "bc")))
  = Some (10000%Z, ["R"], Some (JStr "active"), Some 20000%Z, Some "s3")
  ∧ observe (Part001.run (Running initial) (setup_events ++ double_disconnect_events))
      (fun st => (st.(rooms), r_status <$> st.(roomHeap) !! "R", Part001.listRooms st,
                  resolve st (Some "bc")))
    = Some ([], Some (JStr "active"), [], Some "s3").
Proof. split; vm_compute; reflexivity. Qed.

(** ** Joining a room (part_001) *)

(** C4 (code_bug): in part_001 every join-room request ends the process
    with the [ReferenceError] on [room] (line 251): no RoomNotFound or
    PasswordIncorrect reply is sent, whatever the room id and password. *)
Theorem c4_join_room_throws (st : State) (cid : string) (ci : Client)
    (roomId : option string) (password : jsval) :
  st.(clients) !! cid = Some ci ->
  Part001.step (Running st) (EMessage cid (MJoinRoom roomId password))
  = Crashed (ReferenceError "room") st.
Proof. intros Hci. cbn. unfold Part001.dispatch. rewrite Hci. reflexivity. Qed.

Lemma c4_join_room_throws_witness :
  part001_setup.(clients) !! "sv" = Some (mkClient (Some "v") (Some "V") None) ∧
  Part001.step (Running part001_setup) (EMessage "sv" (MJoinRoom (Some "no-such-room") JUndefined))
  = Crashed (ReferenceError "room") part001_setup.
Proof.
  split; [vm_compute; reflexivity|].
  apply (c4_join_room_throws part001_setup "sv" (mkClient (Some "v") (Some "V") None)).
  vm_compute. reflexivity.
Defined.

(** ** Stale connection teardown (part_001) *)

(** C5 (counterexample): "v" re-registered on s2 before its old socket
    s1 closed; the close of s1 erases the binding to s2, although s2 is
    still connected. *)
Lemma c5_stale_close_erases_binding :
  observe (Part001.run (Running initial) stale_close_events)
    (fun st => (st.(persistentIdToClientId) !! "v", resolve st (Some "v"),
                c_persistentId <$> st.(clients) !! "s2"))
  = Some (None, None, Some (Some "v")).
Proof. vm_compute. reflexivity. Qed.

(** C5 (amended): the close of a connection registered as [p] deletes
    [persistentIdToClientId[p]] whatever connection it points at (the
    identity no longer resolves), and removes the connection; only the
    early return of line 347 leaves the state as it was. *)
Theorem c5_disconnect_clears_binding (st : State) (cid : string) (ci : Client) (p : string) :
  st.(clients) !! cid = Some ci ->
  as_truthy ci.(c_persistentId) = Some p ->
  (Part001_early_return st ci p -> Part001.handleDisconnect cid st = st) ∧
  (¬ Part001_early_return st ci p ->
     let st' := Part001.handleDisconnect cid st in
     st'.(persistentIdToClientId) !! p = None ∧ resolve st' (Some p) = None ∧
     st'.(clients) !! cid = None).
Proof.
  intros Hci Hp. unfold Part001.handleDisconnect. rewrite Hci, Hp.
  unfold Part001_early_return.
  destruct (as_truthy (p2r_get st (Some p))) as [rid|] eqn:Hrid;
  [destruct (rooms_get st (Some rid)) as [[r room]|] eqn:Hroom|].
  - split.
    + intros [_ [rid' [Hrid' Hnone]]]. injection Hrid' as <-. congruence.
    + intros _. destruct (c_role ci) as [[]|];
        cbn; unfold resolve, p2c_get; cbn;
        rewrite !lookup_delete_eq; auto.
  - split.
    + intros [Hr _]. rewrite Hr. reflexivity.
    + intros Hne. destruct (c_role ci) as [[]|].
      * exfalso. apply Hne. eauto.
      * cbn; unfold resolve, p2c_get; cbn; rewrite !lookup_delete_eq; auto.
      * cbn; unfold resolve, p2c_get; cbn; rewrite !lookup_delete_eq; auto.
  - split.
    + intros [_ [rid' [Hrid' _]]]. congruence.
    + intros _. destruct (c_role ci) as [[]|];
        cbn; unfold resolve, p2c_get; cbn; rewrite !lookup_delete_eq; auto.
Qed.

Lemma c5_disconnect_clears_binding_witness :
  let ci := mkClient (Some "v") (Some "V") None in
  stale_close_before.(clients) !! "s1" = Some ci ∧
  as_truthy ci.(c_persistentId) = Some "v" ∧
  ¬ Part001_early_return stale_close_before ci "v" ∧
  (let st' := Part001.handleDisconnect "s1" stale_close_before in
   st'.(persistentIdToClientId) !! "v" = None ∧ resolve st' (Some "v") = None ∧
   st'.(clients) !! "s1" = None).
Proof.
  cbv zeta.
  assert (Hc : stale_close_before.(clients) !! "s1" = Some (mkClient (Some "v") (Some "V") None))
    by (vm_compute; reflexivity).
  assert (He : ¬ Part001_early_return stale_close_before (mkClient (Some "v") (Some "V") None) "v")
    by (intros [Hr _]; discriminate Hr).
  split; [exact Hc|]. split; [reflexivity|]. split; [exact He|].
  exact (proj2 (c5_disconnect_clears_binding stale_close_before "s1" _ "v" Hc eq_refl) He).
Defined.

(** ** Anchor mute (part_001) *)

(** C6 (code_bug): "x", who owns no room, sends live.anchor.mute naming the
    broadcaster "bc": the handler checks the payload's [anchorId], not the
    sender, and sets the flag of room "R". *)
Theorem c6_foreign_anchor_mute_honoured :
  observe (Part001.run (Running initial) setup_events)
    (fun st => r_isAnchorMuted <$> st.(roomHeap) !! "R") = Some (Some (JBool false))
  ∧ observe (Part001.run (Running initial) foreign_anchor_mute_events)
      (fun st => (r_isAnchorMuted <$> st.(roomHeap) !! "R",
                  c_persistentId <$> st.(clients) !! "s2"))
    = Some (Some (JBool true), Some (Some "x")).
Proof. split; vm_compute; reflexivity. Qed.

(** ** Lemmas on lists and rooms *)

Lemma filter_all {A} (P : A -> Prop) `{∀ x, Decision (P x)} (l : list A) :
  (∀ y, y ∈ l -> P y) -> filter P l = l.
Proof.
  induction l as [|y l IH]; intros Hall; [reflexivity|].
  rewrite filter_cons_True by (apply Hall; left).
  rewrite IH; [reflexivity|]. intros z Hz. apply Hall. right. exact Hz.
Qed.

Lemma live_room_del (st st' : State) (r r0 : string) :
  st'.(rooms) = filter (fun x => x ≠ r) st.(rooms) -> st'.(roomHeap) = st.(roomHeap) ->
  live_room st' r0 = if bool_decide (r0 = r) then None else live_room st r0.
Proof.
  intros E1 E2. unfold live_room. rewrite E1, E2.
  destruct (decide (r0 = r)) as [->|Hr].
  - rewrite (bool_decide_eq_true_2 (r = r)) by reflexivity.
    rewrite bool_decide_eq_false_2; [reflexivity|].
    rewrite list_elem_of_filter. tauto.
  - rewrite (bool_decide_eq_false_2 (r0 = r)) by exact Hr.
    rewrite (bool_decide_ext (r0 ∈ filter (λ x, x ≠ r) (rooms st)) (r0 ∈ rooms st)); [reflexivity|].
    rewrite list_elem_of_filter. tauto.
Qed.

(** ** Relay (part_001) *)

Lemma obj_get_nil (k : string) : obj_get [] k = JUndefined.
Proof. reflexivity. Qed.

Lemma obj_get_cons (k0 k : string) (v0 : jsval) (o : obj) :
  obj_get ((k0, v0) :: o) k = if bool_decide (k0 = k) then v0 else obj_get o k.
Proof.
  unfold obj_get. cbn. case_bool_decide as Hk; rewrite ?decide_True, ?decide_False by exact Hk;
    [reflexivity|]. destruct (list_find _ o) as [[? []]|]; reflexivity.
Qed.

Lemma obj_get_filter (P : string * jsval -> Prop) `{∀ kv, Decision (P kv)} (o : obj) (k : string) :
  (∀ kv, kv ∈ o -> kv.1 = k -> P kv) -> obj_get (filter P o) k = obj_get o k.
Proof.
  induction o as [|[k0 v0] o IH]; intros HP; [reflexivity|].
  rewrite filter_cons. case_decide as Hp.
  - rewrite !obj_get_cons. case_bool_decide; [reflexivity|].
    apply IH. intros kv Hkv. apply HP. by apply elem_of_cons; right.
  - rewrite obj_get_cons. case_bool_decide as Hk.
    + exfalso. apply Hp, HP; [apply elem_of_cons; left; reflexivity | exact Hk].
    + apply IH. intros kv Hkv. apply HP. by apply elem_of_cons; right.
Qed.

Lemma obj_get_absent (o : obj) (k : string) :
  (∀ kv, kv ∈ o -> kv.1 ≠ k) -> obj_get o k = JUndefined.
Proof.
  induction o as [|[k0 v0] o IH]; intros Hn; [reflexivity|].
  rewrite obj_get_cons. rewrite bool_decide_eq_false_2.
  - apply IH. intros kv Hkv. apply Hn. by apply elem_of_cons; right.
  - apply (Hn (k0, v0)). apply elem_of_cons; left; reflexivity.
Qed.

Lemma obj_get_map_set (k k' : string) (v : jsval) (o : obj) :
  obj_get (map (fun kv => if bool_decide (kv.1 = k) then (kv.1, v) else kv) o) k'
  = if bool_decide (k = k') then (if bool_decide (k ∈ o.*1) then v else JUndefined)
    else obj_get o k'.
Proof.
  induction o as [|[k0 v0] o IH]; [cbn; by case_bool_decide|].
  cbn [map fst]. rewrite (obj_get_cons k0 k' v0 o).
  assert (Hm : bool_decide (k ∈ ((k0, v0) :: o).*1) = bool_decide (k0 = k ∨ k ∈ o.*1)).
  { apply bool_decide_ext. cbn. rewrite elem_of_cons. split; intros [?|?]; auto. }
  rewrite Hm. clear Hm.
  destruct (bool_decide_reflect (k0 = k)) as [->|Hk0]; cbn [fst snd].
  - rewrite obj_get_cons. destruct (bool_decide_reflect (k = k')); [|exact IH].
    rewrite bool_decide_eq_true_2 by (left; reflexivity). reflexivity.
  - rewrite obj_get_cons, IH.
    destruct (bool_decide_reflect (k0 = k')) as [->|Hk0'].
    + rewrite bool_decide_eq_false_2 by congruence. reflexivity.
    + destruct (bool_decide_reflect (k = k')); [|reflexivity].
      rewrite (bool_decide_ext (k0 = k ∨ k ∈ o.*1) (k ∈ o.*1)); [reflexivity|].
      split; [intros [?|?]; [congruence|done]|by right].
Qed.

Lemma obj_get_set (k k' : string) (v : jsval) (o : obj) :
  obj_get (obj_set k v o) k' = if bool_decide (k = k') then v else obj_get o k'.
Proof.
  unfold obj_set. case_bool_decide as Hin.
  - rewrite obj_get_map_set, (bool_decide_eq_true_2 (k ∈ o.*1)) by exact Hin. reflexivity.
  - induction o as [|[k0 v0] o IH]; cbn [app].
    + rewrite obj_get_cons, obj_get_nil. reflexivity.
    + rewrite !obj_get_cons. rewrite IH.
      * destruct (bool_decide_reflect (k0 = k')) as [->|]; [|reflexivity].
        rewrite bool_decide_eq_false_2; [reflexivity|].
        intros ->. apply Hin. apply elem_of_cons. left. reflexivity.
      * intros Hin'. apply Hin. cbn. apply elem_of_cons. by right.
Qed.

Lemma obj_set_elem (k : string) (v : jsval) (o : obj) (kv : string * jsval) :
  kv ∈ obj_set k v o -> (kv.1 = k ∧ kv.2 = v) ∨ (kv.1 ≠ k ∧ kv ∈ o).
Proof.
  unfold obj_set. case_bool_decide as Hin.
  - rewrite list_elem_of_In, in_map_iff. intros [[k0 v0] [Heq Hy]].
    rewrite <- list_elem_of_In in Hy. cbn in Heq.
    case_bool_decide as Hk; subst; cbn; [left; auto | right; auto].
  - rewrite elem_of_app, list_elem_of_singleton. intros [Hy | ->]; [|left; auto].
    right. split; [|exact Hy]. intros Hk. apply Hin. rewrite <- Hk.
    apply list_elem_of_fmap_2. exact Hy.
Qed.

Lemma with_outbox_nil (st : State) : with_outbox st (st.(outbox) ++ []) = st.
Proof. rewrite app_nil_r. destruct st; reflexivity. Qed.

Lemma relay_payload (sv : jsval) (p : obj) :
  (∀ kv, kv ∈ p -> kv.2 ≠ JUndefined) ->
  let q := json_roundtrip (obj_set "senderId" sv p) in
  obj_get q "senderId" = sv ∧ ∀ key, key ≠ "senderId" -> obj_get q key = obj_get p key.
Proof.
  intros Hdef q. unfold q, json_roundtrip. split.
  - destruct (decide (sv = JUndefined)) as [->|Hsv].
    + apply obj_get_absent. intros kv Hkv Hk.
      apply list_elem_of_filter in Hkv as [Hd Hkv].
      destruct (obj_set_elem _ _ _ _ Hkv) as [[_ ?]|[? _]]; contradiction.
    + rewrite obj_get_filter.
      * rewrite obj_get_set, bool_decide_eq_true_2 by reflexivity. reflexivity.
      * intros kv Hkv Hk. destruct (obj_set_elem _ _ _ _ Hkv) as [[_ ->]|[? _]]; [exact Hsv|contradiction].
  - intros key Hkey. rewrite obj_get_filter.
    + rewrite obj_get_set, bool_decide_eq_false_2 by congruence. reflexivity.
    + intros kv Hkv Hk. destruct (obj_set_elem _ _ _ _ Hkv) as [[? _]|[_ Hin]].
      * congruence.
      * exact (Hdef kv Hin).
Qed.

(** C9 (counterexample): a payload field [senderId] is not preserved: the
    relay from "bc" carrying [senderId: "X"] reaches "v" with
    [senderId: "bc"]. *)
Lemma c9_payload_senderId_overwritten :
  observe (Part001.run (Running part001_setup) [EMessage "s1" (MRelay Offer spoofed_offer)])
    (fun st => last st.(outbox))
  = Some (Some ("sv", ORelay "offer" [("targetId", JStr "v"); ("senderId", JStr "bc"); ("sdp", JStr "o")])).
Proof. vm_compute. reflexivity. Qed.

(** C9 (amended): an offer, answer or candidate message from a registered
    connection changes nothing but the outbox (no room, mute set, index or
    anchor flag changes).  When the payload's [targetId] is a non-empty
    string resolving to a live connection, that connection, and only it,
    receives one message of the same type whose payload has every field of
    the original except [senderId] unchanged, and [senderId] equal to the
    sender's identity; otherwise nothing is sent, to the sender neither.
    (A parsed JSON payload holds no [undefined] value.) *)
Theorem c9_relay_frame (st : State) (cid : string) (ci : Client) (k : RelayKind) (p : obj) :
  st.(clients) !! cid = Some ci ->
  (∀ kv, kv ∈ p -> kv.2 ≠ JUndefined) ->
  ∃ sent, Part001.step (Running st) (EMessage cid (MRelay k p))
          = Running (with_outbox st (st.(outbox) ++ sent)) ∧
    match relay_target st p with
    | Some tc => ∃ q, sent = [(tc, ORelay (relay_type k) q)] ∧
        obj_get q "senderId" = jsid_val ci.(c_persistentId) ∧
        ∀ key, key ≠ "senderId" -> obj_get q key = obj_get p key
    | None => sent = []
    end.
Proof.
  intros Hci Hdef. cbn [Part001.step]. unfold Part001.dispatch. rewrite Hci.
  unfold routeP2PMessage, relay_target.
  destruct (obj_get p "targetId") as [| |[]|z|s|o] eqn:Ht; cbn [truthy negb];
    try (exists []; split; [rewrite with_outbox_nil; reflexivity|reflexivity]).
  - destruct (negb (z =? 0)%Z); exists []; (split; [rewrite with_outbox_nil; reflexivity|reflexivity]).
  - case_bool_decide as Hs; cbn [negb];
      [exists []; split; [rewrite with_outbox_nil; reflexivity|reflexivity]|].
    unfold resolve, p2c_get. cbn [mbind option_bind].
    destruct (persistentIdToClientId st !! s) as [c|]; cbn [mbind option_bind];
      [destruct (clients st !! c) eqn:Hc|]; cbn [mbind option_bind];
      try (exists []; split; [rewrite with_outbox_nil; reflexivity|reflexivity]).
    eexists. split; [reflexivity|].
    eexists. split; [reflexivity|]. apply relay_payload. exact Hdef.
Qed.

Lemma c9_relay_frame_witness :
  ∃ sent, Part001.step (Running part001_setup) (EMessage "s1" (MRelay Offer [("targetId", JStr "v")]))
          = Running (with_outbox part001_setup (part001_setup.(outbox) ++ sent)) ∧
    match relay_target part001_setup [("targetId", JStr "v")] with
    | Some tc => ∃ q, sent = [(tc, ORelay (relay_type Offer) q)] ∧
        obj_get q "senderId" = jsid_val p001_bc.(c_persistentId) ∧
        ∀ key, key ≠ "senderId" -> obj_get q key = obj_get [("targetId", JStr "v")] key
    | None => sent = []
    end.
Proof.
  apply (c9_relay_frame part001_setup "s1" p001_bc Offer [("targetId", JStr "v")]).
  - vm_compute. reflexivity.
  - intros kv Hkv. apply list_elem_of_singleton in Hkv. subst kv. discriminate.
Defined.

(** ** Password on rejoin (part_001) *)

Lemma forEach_frame {A} (l : list A) (body : State -> A -> State) (st : State) :
  (∀ s a, (body s a).(rooms) = s.(rooms) ∧ (body s a).(roomHeap) = s.(roomHeap)) ->
  (forEach l body st).(rooms) = st.(rooms) ∧ (forEach l body st).(roomHeap) = st.(roomHeap).
Proof.
  intros H. unfold forEach. revert st. induction l as [|a l IH]; intros st; cbn; [auto|].
  destruct (IH (body st a)) as [E1 E2]. destruct (H st a) as [E3 E4]. split; congruence.
Qed.

Lemma live_room_frame (st st' : State) (r : string) :
  st'.(rooms) = st.(rooms) -> st'.(roomHeap) = st.(roomHeap) -> live_room st' r = live_room st r.
Proof. intros E1 E2. unfold live_room. rewrite E1, E2. reflexivity. Qed.

Lemma live_room_forEach_sends {A} (l : list A) (body : State -> A -> State) (st : State) (r : string) :
  (∀ s a, (body s a).(rooms) = s.(rooms) ∧ (body s a).(roomHeap) = s.(roomHeap)) ->
  live_room (forEach l body st) r = live_room st r.
Proof. intros H. destruct (forEach_frame l body st H). apply live_room_frame; assumption. Qed.

Lemma rooms_get_live (st : State) (rid : string) (room : Room) :
  live_room st rid = Some room -> rooms_get st (Some rid) = Some (rid, room).
Proof.
  unfold live_room, rooms_get. case_bool_decide; [intros ->; reflexivity|discriminate].
Qed.

Lemma rejoin_room_written (st : State) (cid : string) (ci : Client) (rid : string)
    (n : option string) (pw : jsval) (pid : string) (room : Room) :
  as_truthy ci.(c_persistentId) = Some pid ->
  live_room st rid = Some room -> room.(r_broadcasterId) = Some pid ->
  ∃ R', live_room (Part001.handleRejoinRoom cid ci (Some rid) n pw st) rid = Some R' ∧
        R'.(r_password) = js_or pw JNull ∧ R'.(r_status) = JStr "active".
Proof.
  intros Hp Hlive Hbc. unfold Part001.handleRejoinRoom. rewrite Hp, (rooms_get_live _ _ _ Hlive).
  rewrite bool_decide_eq_false_2 by (rewrite Hbc; tauto).
  assert (Hin : rid ∈ st.(rooms)) by (unfold live_room in Hlive; case_bool_decide; [done|discriminate]).
  destruct (bool_decide (r_name room ≠ n)); cbn -[forEach];
    destruct (r_reconnectTimeout room); cbn -[forEach].
  all: rewrite live_room_forEach_sends
         by (intros s a; destruct (resolve s a); [case_bool_decide|]; split; reflexivity).
  all: unfold live_room; cbn; rewrite bool_decide_eq_true_2 by exact Hin.
  all: rewrite lookup_insert_eq; eexists; split; [reflexivity|]; split; reflexivity.
Qed.

(** C10: a successful rejoin-room (the caller's identity owns the room)
    stores [password || null] as the room's password: the payload's value
    when truthy, [null] when it is absent, empty or otherwise falsy.  In
    the falsy case the join guard of line 256 rejects no password any more
    and list-rooms reports the room as not password-protected. *)
Theorem c10_rejoin_replaces_password (st : State) (cid : string) (ci : Client) (rid : string)
    (n : option string) (pw : jsval) (pid : string) (room : Room) :
  st.(clients) !! cid = Some ci ->
  as_truthy ci.(c_persistentId) = Some pid ->
  live_room st rid = Some room -> room.(r_broadcasterId) = Some pid ->
  ∃ st' R', Part001.step (Running st) (EMessage cid (MRejoinRoom (Some rid) n pw)) = Running st' ∧
    live_room st' rid = Some R' ∧ R'.(r_password) = js_or pw JNull ∧
    (truthy pw = false ->
       R'.(r_password) = JNull ∧ (∀ x, Part001.passwordRejected R' x = false) ∧
       Part001.roomListEntry st' R' ∈ Part001.listRooms st' ∧
       e_isPasswordProtected (Part001.roomListEntry st' R') = Some false).
Proof.
  intros Hci Hp Hlive Hbc.
  destruct (rejoin_room_written st cid ci rid n pw pid room Hp Hlive Hbc) as (R' & HR & Hpw & _).
  exists (Part001.handleRejoinRoom cid ci (Some rid) n pw st), R'.
  split; [cbn [Part001.step]; unfold Part001.dispatch; rewrite Hci; reflexivity|].
  split; [exact HR|]. split; [exact Hpw|].
  intros Hf. unfold js_or in Hpw. rewrite Hf in Hpw.
  split; [exact Hpw|]. split.
  - intros x. unfold Part001.passwordRejected. rewrite Hpw. reflexivity.
  - split.
    + unfold Part001.listRooms. apply list_elem_of_omap. exists rid.
      unfold live_room in HR. case_bool_decide as Hin; [|discriminate].
      split; [exact Hin|]. rewrite HR. reflexivity.
    + unfold Part001.roomListEntry. cbn. rewrite Hpw. reflexivity.
Qed.

Lemma c10_rejoin_replaces_password_witness :
  locked_room.(r_password) = JStr "secret" ∧
  ∃ st' R', Part001.step (Running locked_setup) (EMessage "s1" (MRejoinRoom (Some "R") (Some "X") JUndefined))
            = Running st' ∧
    live_room st' "R" = Some R' ∧ R'.(r_password) = js_or JUndefined JNull ∧
    (truthy JUndefined = false ->
       R'.(r_password) = JNull ∧ (∀ x, Part001.passwordRejected R' x = false) ∧
       Part001.roomListEntry st' R' ∈ Part001.listRooms st' ∧
       e_isPasswordProtected (Part001.roomListEntry st' R') = Some false).
Proof.
  split; [vm_compute; reflexivity|].
  apply (c10_rejoin_replaces_password locked_setup "s1" locked_bc "R" (Some "X") JUndefined "bc" locked_room);
    vm_compute; reflexivity.
Defined.

(** ** What part_001 keeps in every reachable state *)

Lemma inv_initial : p001_inv initial.
Proof.
  split; [intros r R H; discriminate H|]. split; [intros r H; inversion H|].
  split; [intros t [x H]; discriminate H|]. constructor.
Qed.

Lemma inv_send st c m : viewer_notice m = false → p001_inv st → p001_inv (send st c m).
Proof.
  intros Hm (H1 & H2 & H3 & H4). split; [exact H1|]. split; [exact H2|]. split; [exact H3|].
  cbn. apply Forall_app. split; [exact H4|]. constructor; [exact Hm|constructor].
Qed.

Lemma inv_frame st st' :
  st'.(roomHeap) = st.(roomHeap) → st'.(rooms) = st.(rooms) → st'.(timers) = st.(timers) →
  st'.(nextTimer) = st.(nextTimer) → st'.(outbox) = st.(outbox) → p001_inv st → p001_inv st'.
Proof. unfold p001_inv, room_ok, timer_ok. intros -> -> -> -> -> H. exact H. Qed.

Lemma inv_client_put st c ci : p001_inv st → p001_inv (client_put st c ci).
Proof. apply inv_frame; reflexivity. Qed.
Lemma inv_clients_delete st c : p001_inv st → p001_inv (clients_delete st c).
Proof. apply inv_frame; reflexivity. Qed.
Lemma inv_p2c_set st k c : p001_inv st → p001_inv (p2c_set st k c).
Proof. apply inv_frame; reflexivity. Qed.
Lemma inv_p2c_delete st k : p001_inv st → p001_inv (p2c_delete st k).
Proof. destruct k; [apply inv_frame; reflexivity|exact id]. Qed.
Lemma inv_p2r_set st k r : p001_inv st → p001_inv (p2r_set st k r).
Proof. apply inv_frame; reflexivity. Qed.
Lemma inv_p2r_delete st k : p001_inv st → p001_inv (p2r_delete st k).
Proof. apply inv_frame; reflexivity. Qed.
Lemma inv_with_now st t : p001_inv st → p001_inv (with_now st t).
Proof. apply inv_frame; reflexivity. Qed.

Lemma inv_heap_put st r R : room_ok st r R → p001_inv st → p001_inv (heap_put st r R).
Proof.
  intros Hok (H1 & H2 & H3 & H4). split; [|split; [|split]]; cbn; [|intros x Hx|exact H3|exact H4].
  - intros x X. destruct (decide (x = r)) as [->|Hne].
    + rewrite lookup_insert_eq. intros [= <-]. exact Hok.
    + rewrite lookup_insert_ne by congruence. apply H1.
  - destruct (decide (x = r)) as [->|Hne]; [rewrite lookup_insert_eq; eauto|].
    rewrite lookup_insert_ne by congruence. apply H2, Hx.
Qed.

Lemma inv_rooms_set st r R : room_ok st r R → p001_inv st → p001_inv (rooms_set st r R).
Proof.
  intros Hok Hi. pose proof (inv_heap_put st r R Hok Hi) as Hh. unfold rooms_set.
  case_bool_decide; [exact Hh|].
  destruct Hh as (H1 & H2 & H3 & H4). split; [exact H1|]. split; [|split; [exact H3|exact H4]].
  cbn. intros x Hx. apply elem_of_app in Hx as [Hx|Hx]; [apply H2, Hx|].
  apply list_elem_of_singleton in Hx as ->. cbn. rewrite lookup_insert_eq. eauto.
Qed.

Lemma inv_rooms_delete st r : p001_inv st → p001_inv (rooms_delete st r).
Proof.
  intros (H1 & H2 & H3 & H4). split; [exact H1|]. split; [|split; [exact H3|exact H4]].
  cbn. intros x Hx. apply list_elem_of_filter in Hx as [_ Hx]. apply H2, Hx.
Qed.

Lemma setTimeout_spec st ms a st' t :
  setTimeout st ms a = (st', t) →
  t = st.(nextTimer) ∧ st' = with_timers st (<[t := mkTimer (st.(now) + ms) a]> st.(timers)) (S t).
Proof. intros [= <- <-]. split; reflexivity. Qed.

Lemma room_ok_timers st st' r R :
  (st.(nextTimer) ≤ st'.(nextTimer))%nat →
  (∀ t, (t < st.(nextTimer))%nat → ∀ tm, st'.(timers) !! t = Some tm → st.(timers) !! t = Some tm) →
  room_ok st r R → room_ok st' r R.
Proof.
  intros Hn Ht (Hv & Hm & Hid & Hr). split; [exact Hv|]. split; [exact Hm|]. split; [exact Hid|].
  intros t Et. destruct (Hr t Et) as [Hlt Ha]. split; [lia|].
  intros tm Htm. apply Ha, (Ht t Hlt tm Htm).
Qed.

Lemma inv_setTimeout st ms a : p001_inv st → p001_inv (fst (setTimeout st ms a)).
Proof.
  intros (H1 & H2 & H3 & H4). split; [|split; [exact H2|split; [|exact H4]]].
  - intros r R HR. apply (room_ok_timers st); [cbn; lia| |exact (H1 r R HR)].
    intros t Hlt tm. cbn. rewrite lookup_insert_ne by lia. exact id.
  - cbn. intros t Ht. destruct (decide (t = nextTimer st)) as [->|Hne]; [lia|].
    rewrite lookup_insert_ne in Ht by congruence. specialize (H3 t Ht). lia.
Qed.

Lemma inv_clearTimeout st t : p001_inv st → p001_inv (clearTimeout st t).
Proof.
  intros (H1 & H2 & H3 & H4). split; [|split; [exact H2|split; [|exact H4]]].
  - intros r R HR. apply (room_ok_timers st); [cbn; lia| |exact (H1 r R HR)].
    intros t' Hlt tm. cbn. destruct (decide (t' = t)) as [->|Hne].
    + rewrite lookup_delete_eq. discriminate.
    + rewrite lookup_delete_ne by congruence. exact id.
  - cbn. intros x Hx. destruct (decide (x = t)) as [->|Hne].
    + rewrite lookup_delete_eq in Hx. destruct Hx as [? Hx]; discriminate Hx.
    + rewrite lookup_delete_ne in Hx by congruence. apply H3, Hx.
Qed.

Lemma inv_room st r R : p001_inv st → st.(roomHeap) !! r = Some R → room_ok st r R.
Proof. intros (H1 & _) H. exact (H1 r R H). Qed.

Lemma rooms_get_some st k r R :
  rooms_get st k = Some (r, R) → k = Some r ∧ r ∈ st.(rooms) ∧ st.(roomHeap) !! r = Some R.
Proof.
  unfold rooms_get. destruct k as [k|]; [|discriminate].
  case_bool_decide; [|discriminate]. destruct (roomHeap st !! k) eqn:E; [|discriminate].
  intros [= <- <-]. auto.
Qed.

Lemma inv_rooms_get st k r R : p001_inv st → rooms_get st k = Some (r, R) → room_ok st r R.
Proof. intros Hi H. apply rooms_get_some in H as (_ & _ & H). exact (inv_room st r R Hi H). Qed.

Lemma inv_heap_update st r f :
  (∀ R, room_ok st r R → room_ok st r (f R)) → p001_inv st → p001_inv (heap_update st r f).
Proof.
  intros Hf Hi. unfold heap_update. destruct (roomHeap st !! r) eqn:E; [|exact Hi].
  apply inv_heap_put; [apply Hf; exact (inv_room st r _ Hi E)|exact Hi].
Qed.

(** Under the invariant no room has a viewer, so the mute, unmute and kick
    guard never passes. *)
Lemma inv_owned_none st ci t : p001_inv st → ownedRoomWithViewer st ci t = None.
Proof.
  intros Hi. unfold ownedRoomWithViewer.
  destruct (rooms_get st (p2r_get st (c_persistentId ci))) as [[r R]|] eqn:E; [|reflexivity].
  destruct (inv_rooms_get st _ r R Hi E) as (Hv & _). rewrite Hv.
  case_bool_decide; reflexivity.
Qed.

Lemma inv_forEach_nil {A} (l : list A) body st : l = [] → p001_inv st → p001_inv (forEach l body st).
Proof. intros -> H. exact H. Qed.

Ltac ok_tac :=
  match goal with
  | Hok : room_ok _ ?r ?R |- room_ok _ ?r _ =>
      first [ exact Hok
            | let Hv := fresh in let Hm := fresh in let Hid := fresh in let Ht := fresh in
              destruct Hok as (Hv & Hm & Hid & Ht); unfold room_ok, timer_ok; cbn;
              rewrite ?Hv, ?Hm; split; [reflexivity|]; split; [reflexivity|]; split; [exact Hid|];
              first [ exact Ht | intros ? [=] | idtac ] ]
  | |- room_ok _ _ _ => unfold room_ok, timer_ok; cbn; split; [reflexivity|]; split; [reflexivity|];
                        split; [reflexivity|]; intros ? [=]
  end.

Ltac inv_go :=
  repeat match goal with
  | H : rooms_get ?s ?k = Some (?r, ?R), Hi : p001_inv ?s |- _ =>
      let Hok := fresh "Hok" in let Hk := fresh "Hk" in
      pose proof (inv_rooms_get s k r R Hi H) as Hok;
      apply rooms_get_some in H as (Hk & _ & _)
  | |- p001_inv (send _ _ _) => apply inv_send; [reflexivity|]
  | |- p001_inv (client_put _ _ _) => apply inv_client_put
  | |- p001_inv (clients_delete _ _) => apply inv_clients_delete
  | |- p001_inv (p2c_set _ _ _) => apply inv_p2c_set
  | |- p001_inv (p2c_delete _ _) => apply inv_p2c_delete
  | |- p001_inv (p2r_set _ _ _) => apply inv_p2r_set
  | |- p001_inv (p2r_delete _ _) => apply inv_p2r_delete
  | |- p001_inv (with_now _ _) => apply inv_with_now
  | |- p001_inv (rooms_delete _ _) => apply inv_rooms_delete
  | |- p001_inv (clearTimeout _ _) => apply inv_clearTimeout
  | |- p001_inv (heap_put _ _ _) => apply inv_heap_put; [ok_tac|]
  | |- p001_inv (rooms_set _ _ _) => apply inv_rooms_set; [ok_tac|]
  | |- p001_inv (heap_update _ _ _) =>
      apply inv_heap_update; [let R := fresh in let Hok := fresh in intros R Hok; ok_tac|]
  | |- p001_inv (forEach _ _ _) =>
      apply inv_forEach_nil; [match goal with Hok : room_ok _ _ _ |- _ => apply Hok end|]
  | |- context [setTimeout ?s ?ms ?a] =>
      let Hs := fresh "Hs" in let Es := fresh "Es" in
      assert (Hs : p001_inv (fst (setTimeout s ms a))) by (apply inv_setTimeout; inv_go);
      destruct (setTimeout s ms a) as [?st ?t] eqn:Es; cbn [fst] in Hs
  | |- p001_inv _ => assumption
  | |- p001_inv _ => case_match
  end.

Lemma inv_registration st cid ci p u : p001_inv st → p001_inv (handleRegistration cid ci p u st).
Proof. intros Hi. unfold handleRegistration. inv_go. Qed.

Lemma inv_create st cid ci n pw rid : p001_inv st → p001_inv (Part001.handleCreateRoom cid ci n pw rid st).
Proof. intros Hi. unfold Part001.handleCreateRoom. cbv zeta. inv_go. Qed.

Lemma inv_rejoin st cid ci rid n pw : p001_inv st → p001_inv (Part001.handleRejoinRoom cid ci rid n pw st).
Proof.
  intros Hi. unfold Part001.handleRejoinRoom. cbv zeta.
  destruct (as_truthy _) as [p|]; [|exact Hi].
  destruct (rooms_get st rid) as [[r room]|] eqn:E; [|inv_go].
  pose proof (inv_rooms_get st rid r room Hi E) as Hok. clear E.
  case_bool_decide; [inv_go|].
  destruct (bool_decide (r_name room ≠ n)); cbn [r_reconnectTimeout set_password set_name];
    destruct (r_reconnectTimeout room) eqn:Et; inv_go.
Qed.

Lemma inv_leave st cid ci : p001_inv st → p001_inv (handleLeaveRoom cid ci st).
Proof. intros Hi. unfold handleLeaveRoom. cbv zeta. inv_go. Qed.

Lemma inv_anchor st cid ty a b : p001_inv st → p001_inv (Part001.handleAnchorMuteStatus cid ty a b st).
Proof. intros Hi. unfold Part001.handleAnchorMuteStatus. cbv zeta. inv_go. Qed.

Lemma inv_relay st s ty p : p001_inv st → p001_inv (routeP2PMessage s ty p st).
Proof. intros Hi. unfold routeP2PMessage. cbv zeta. inv_go. Qed.

Lemma inv_disconnect st c : p001_inv st → p001_inv (Part001.handleDisconnect c st).
Proof.
  intros Hi. unfold Part001.handleDisconnect. cbv zeta. inv_go.
  match goal with Es : setTimeout _ _ _ = _ |- _ => apply setTimeout_spec in Es as [-> ->] end.
  match goal with H : _ = ?t |- _ => is_var t; subst t end. cbn. split; [lia|].
  rewrite lookup_insert_eq. intros tm [= <-]. cbn. congruence.
Qed.

Lemma inv_reconnect st r : p001_inv st → p001_inv (Part001.reconnectTimeoutFired r st).
Proof.
  intros Hi. unfold Part001.reconnectTimeoutFired. cbv zeta.
  destruct (roomHeap st !! r) as [room|] eqn:E; [|exact Hi].
  pose proof (inv_room st r room Hi E) as Hok. inv_go.
Qed.

Lemma inv_dispatch st cid m st' : p001_inv st → Part001.dispatch cid m st = Ok st' → p001_inv st'.
Proof.
  intros Hi. unfold Part001.dispatch. destruct (clients st !! cid) as [ci|]; [|intros [= <-]; exact Hi].
  destruct m; try discriminate; intros [= <-];
    unfold handleMuteViewer, handleUnmuteViewer, handleKickUser;
    rewrite ?inv_owned_none by exact Hi;
    auto using inv_registration, inv_create, inv_rejoin, inv_leave, inv_anchor, inv_relay.
  unfold Part001.handleListRooms. inv_go.
Qed.

Lemma inv_step st e st' : p001_inv st → Part001.step (Running st) e = Running st' → p001_inv st'.
Proof.
  intros Hi. destruct e as [c|c m|c|ms|t]; cbn.
  - intros [= <-]. inv_go.
  - destruct (Part001.dispatch c m st) eqn:E; intros [= <-]. exact (inv_dispatch st c m _ Hi E).
  - intros [= <-]. apply inv_disconnect, Hi.
  - intros [= <-]. inv_go.
  - destruct (timers st !! t) as [tm|]; [|intros [= <-]; exact Hi].
    case_bool_decide; intros [= <-]; [|exact Hi].
    change (with_timers st (delete t (timers st)) (nextTimer st)) with (clearTimeout st t).
    destruct (t_action tm); cbn; [apply inv_reconnect|apply inv_disconnect]; apply inv_clearTimeout, Hi.
Qed.

Lemma run_crashed es ex s : Part001.run (Crashed ex s) es = Crashed ex s.
Proof. induction es; [reflexivity|exact IHes]. Qed.

Lemma inv_run st es st' : p001_inv st → Part001.run (Running st) es = Running st' → p001_inv st'.
Proof.
  revert st. induction es as [|e es IH]; intros st Hi; [intros [= <-]; exact Hi|].
  change (Part001.run (Running st) (e :: es)) with (Part001.run (Part001.step (Running st) e) es).
  destruct (Part001.step (Running st) e) as [s1|ex s1] eqn:E.
  - apply IH. exact (inv_step st e s1 Hi E).
  - rewrite run_crashed. discriminate.
Qed.

Lemma reach_inv es st : Part001.run (Running initial) es = Running st → p001_inv st.
Proof. apply inv_run, inv_initial. Qed.





















Lemma inv_live st r R : p001_inv st → live_room st r = Some R → room_ok st r R.
Proof. intros Hi H. unfold live_room in H. case_bool_decide; [|discriminate]. exact (inv_room st r R Hi H). Qed.

Lemma inv_live_empty st r R :
  p001_inv st → live_room st r = Some R → R.(r_viewers) = [] ∧ R.(r_mutedViewers) = [].
Proof. intros Hi H. destruct (inv_live st r R Hi H) as (Hv & Hm & _). split; assumption. Qed.

Lemma inv_muted_sub st : p001_inv st → muted_sub st.
Proof.
  intros Hi r R x HR Hx. destruct (inv_live_empty st r R Hi HR) as (_ & Hm).
  rewrite Hm in Hx. exfalso. exact (not_elem_of_nil _ Hx).
Qed.

Lemma inv_no_overlap st : p001_inv st → no_overlap st.
Proof.
  intros Hi r1 r2 R1 R2 x _ H1 _ Hx. destruct (inv_live_empty st r1 R1 Hi H1) as (Hv & _).
  rewrite Hv in Hx. exfalso. exact (not_elem_of_nil _ Hx).
Qed.

Lemma serverjs_load : ServerJs.load = ServerJs.LoadSyntaxError "WebSocket" 352.
Proof. vm_compute. reflexivity. Qed.



(** C2 (confirmed): in every state part_001 reaches, every room of the Map
    has mutedViewers ⊆ viewers; both sets are in fact empty, since only
    join-room adds a viewer and it always throws (see C4), so no viewer,
    muted or not, can leave.  Every step that keeps the process running,
    leave-room included, keeps the inclusion.  src/server.js never loads
    (its second revision redeclares [const WebSocket] at line 352), so
    its handlers never run. *)
Theorem c2_muted_sub_reachable (es : list Event) (st : State) :
  Part001.run (Running initial) es = Running st ->
  muted_sub st ∧
  (∀ r R, live_room st r = Some R -> R.(r_viewers) = [] ∧ R.(r_mutedViewers) = []) ∧
  (∀ e st', Part001.step (Running st) e = Running st' -> muted_sub st') ∧
  ServerJs.load = ServerJs.LoadSyntaxError "WebSocket" 352.
Proof.
  intros Hrun. pose proof (reach_inv es st Hrun) as Hi.
  split; [exact (inv_muted_sub st Hi)|].
  split; [intros r R; exact (inv_live_empty st r R Hi)|].
  split; [|exact serverjs_load].
  intros e st' Hs. exact (inv_muted_sub st' (inv_step st e st' Hi Hs)).
Qed.

Lemma c2_muted_sub_reachable_witness : muted_sub part001_setup.
Proof. exact (proj1 (c2_muted_sub_reachable setup_events part001_setup ltac:(wit))). Defined.

(** C3 (confirmed): in every state part_001 reaches, no identity is a
    viewer of two rooms of the Map: no room has a viewer at all.  Every
    step that keeps the process running keeps this, and a join-room
    never succeeds: from an unregistered connection it is ignored, from a
    registered one it throws the ReferenceError of the undeclared [room]
    (line 251) and ends the process with the state unchanged, so no
    identity ever moves from one room to another.  src/server.js never
    loads. *)
Theorem c3_no_overlap_reachable (es : list Event) (st : State) :
  Part001.run (Running initial) es = Running st ->
  no_overlap st ∧
  (∀ r R, live_room st r = Some R -> R.(r_viewers) = []) ∧
  (∀ e st', Part001.step (Running st) e = Running st' -> no_overlap st') ∧
  (∀ cid rid pw, Part001.step (Running st) (EMessage cid (MJoinRoom rid pw)) = Running st ∨
                 Part001.step (Running st) (EMessage cid (MJoinRoom rid pw)) = Crashed (ReferenceError "room") st) ∧
  ServerJs.load = ServerJs.LoadSyntaxError "WebSocket" 352.
Proof.
  intros Hrun. pose proof (reach_inv es st Hrun) as Hi.
  split; [exact (inv_no_overlap st Hi)|].
  split; [intros r R HR; exact (proj1 (inv_live_empty st r R Hi HR))|].
  split; [intros e st' Hs; exact (inv_no_overlap st' (inv_step st e st' Hi Hs))|].
  split; [|exact serverjs_load].
  intros cid rid pw. unfold Part001.step, Part001.dispatch.
  destruct (clients st !! cid); [right|left]; reflexivity.
Qed.

Lemma c3_no_overlap_reachable_witness :
  Part001.step (Running part001_setup) (EMessage "sv" (MJoinRoom (Some "R") JUndefined)) = Running part001_setup ∨
  Part001.step (Running part001_setup) (EMessage "sv" (MJoinRoom (Some "R") JUndefined))
    = Crashed (ReferenceError "room") part001_setup.
Proof.
  exact (proj1 (proj2 (proj2 (proj2 (c3_no_overlap_reachable setup_events part001_setup ltac:(wit)))))
           "sv" (Some "R") JUndefined).
Defined.

(** C7 (confirmed): in every state part_001 reaches there is no current
    member viewer: no room has a viewer, so the guard of mute-viewer and
    unmute-viewer ([viewers.has], lines 413 and 444) fails for every
    caller and target.  Both messages then change nothing and send
    nothing, so mute followed by unmute restores mutedViewers, and the
    property holds for each of the (no) member viewers. *)
Theorem c7_mute_unmute_inert (es : list Event) (st : State) :
  Part001.run (Running initial) es = Running st ->
  (∀ r R, live_room st r = Some R -> R.(r_viewers) = []) ∧
  (∀ ci t, ownedRoomWithViewer st ci t = None) ∧
  (∀ cid t, Part001.step (Running st) (EMessage cid (MMuteViewer t)) = Running st ∧
            Part001.step (Running st) (EMessage cid (MUnmuteViewer t)) = Running st).
Proof.
  intros Hrun. pose proof (reach_inv es st Hrun) as Hi.
  split; [intros r R HR; exact (proj1 (inv_live_empty st r R Hi HR))|].
  split; [intros ci t; exact (inv_owned_none st ci t Hi)|].
  intros cid t. unfold Part001.step, Part001.dispatch.
  destruct (clients st !! cid) as [ci|]; [|split; reflexivity].
  unfold handleMuteViewer, handleUnmuteViewer. rewrite (inv_owned_none st ci t Hi).
  split; reflexivity.
Qed.

Lemma c7_mute_unmute_inert_witness :
  Part001.step (Running part001_setup) (EMessage "s1" (MMuteViewer (Some "v"))) = Running part001_setup ∧
  Part001.step (Running part001_setup) (EMessage "s1" (MUnmuteViewer (Some "v"))) = Running part001_setup.
Proof.
  exact (proj2 (proj2 (c7_mute_unmute_inert setup_events part001_setup ltac:(wit))) "s1" (Some "v")).
Defined.

(** X16 (part_001, [handleKickUser] lines 517-544): in every state
    part_001 reaches, kick-user changes nothing and sends nothing: its
    guard needs the target among the caller's room's viewers, and no room
    has a viewer. *)
Lemma x_p001_kick_inert (es : list Event) (st : State) (cid : string) (t : jsid) :
  Part001.run (Running initial) es = Running st ->
  Part001.step (Running st) (EMessage cid (MKickUser t)) = Running st.
Proof.
  intros Hrun. pose proof (reach_inv es st Hrun) as Hi.
  unfold Part001.step, Part001.dispatch.
  destruct (clients st !! cid) as [ci|]; [|reflexivity].
  unfold handleKickUser. rewrite (inv_owned_none st ci t Hi). reflexivity.
Qed.

Lemma x_p001_kick_inert_witness :
  Part001.step (Running part001_setup) (EMessage "s1" (MKickUser (Some "v"))) = Running part001_setup.
Proof. exact (x_p001_kick_inert setup_events part001_setup "s1" (Some "v") ltac:(wit)). Defined.

(** ** Further properties of the handlers *)

Lemma bcast_send (l : list jsid) (m : Out) (st : State) :
  forEach l (fun s v => match resolve s v with Some vc => send s vc m | None => s end) st
  = with_outbox st (st.(outbox) ++ notices st l m).
Proof.
  unfold forEach, notices. revert st. induction l as [|a l IH]; intros st; cbn.
  - rewrite app_nil_r. destruct st; reflexivity.
  - destruct (resolve st a) as [vc|] eqn:Ha; cbn.
    + rewrite IH. unfold send. cbn. rewrite <- app_assoc. destruct st; reflexivity.
    + apply IH.
Qed.

Lemma bcast_close (l : list jsid) (m : Out) (st : State) :
  ∃ M, forEach l (fun s v => match resolve s v with
                             | Some vc => p2r_delete (send s vc m) v | None => s end) st
       = with_p2r (with_outbox st (st.(outbox) ++ notices st l m)) M ∧
       ∀ k, M !! k = if bool_decide (k ∈ l ∧ is_Some (resolve st k)) then None
                     else st.(persistentIdToRoomId) !! k.
Proof.
  unfold forEach, notices. revert st. induction l as [|a l IH]; intros st; cbn.
  - exists st.(persistentIdToRoomId). split; [rewrite app_nil_r; destruct st; reflexivity|].
    intros k. rewrite bool_decide_eq_false_2; [reflexivity|]. intros [Hk _]. exact (not_elem_of_nil _ Hk).
  - destruct (resolve st a) as [vc|] eqn:Ha; cbn.
    + destruct (IH (p2r_delete (send st vc m) a)) as [M [E HM]]. exists M. split.
      * rewrite E. cbn. rewrite <- app_assoc. destruct st; reflexivity.
      * intros k. rewrite HM. cbn. change (resolve (p2r_delete (send st vc m) a) k) with (resolve st k).
        destruct (decide (k = a)) as [->|Hk].
        -- rewrite (bool_decide_eq_true_2 (a ∈ a :: l ∧ _)) by (split; [left|rewrite Ha; eauto]).
           rewrite lookup_delete_eq. destruct (bool_decide _); reflexivity.
        -- rewrite lookup_delete_ne by congruence.
           rewrite (bool_decide_ext (k ∈ a :: l ∧ is_Some (resolve st k)) (k ∈ l ∧ is_Some (resolve st k)));
             [reflexivity|rewrite elem_of_cons; tauto].
    + destruct (IH st) as [M [E HM]]. exists M. split; [exact E|].
      intros k. rewrite HM.
      rewrite (bool_decide_ext (k ∈ a :: l ∧ is_Some (resolve st k)) (k ∈ l ∧ is_Some (resolve st k)));
        [reflexivity|rewrite elem_of_cons].
      split; [|tauto]. intros [[->|Hk] Hs]; [rewrite Ha in Hs; destruct Hs; discriminate|tauto].
Qed.

(** X1 (part_001, [handleDisconnect], lines 339-376): when a registered
    broadcaster whose room is live closes, the room stays, marked
    "pending_rejoin" and holding the id of a fresh reconnect timer that
    fires after [RECONNECT_TIMEOUT_MS]; every viewer that resolves to a
    connection is told "broadcaster-disconnected"; the client and its
    persistent-id entry go, and the room index is left unchanged. *)
Lemma x_p001_broadcaster_disconnect (st : State) (c : string) (ci : Client) (p rid : string) (room : Room) :
  st.(clients) !! c = Some ci -> as_truthy ci.(c_persistentId) = Some p ->
  ci.(c_role) = Some Broadcaster -> as_truthy (p2r_get st (Some p)) = Some rid ->
  live_room st rid = Some room ->
  let st' := Part001.handleDisconnect c st in
  live_room st' rid = Some (set_reconnectTimeout (Some st.(nextTimer))
                             (set_status (JStr "pending_rejoin") room)) ∧
  st'.(timers) !! st.(nextTimer) =
    Some (mkTimer (st.(now) + Part001.RECONNECT_TIMEOUT_MS) (TReconnect rid)) ∧
  st'.(outbox) = st.(outbox) ++ notices st room.(r_viewers) (OBroadcasterDisconnected rid) ∧
  st'.(clients) !! c = None ∧ p2c_get st' (Some p) = None ∧
  st'.(persistentIdToRoomId) = st.(persistentIdToRoomId).
Proof.
  intros Hc Hp Hrole Hrid Hlive st'. subst st'.
  unfold Part001.handleDisconnect. rewrite Hc, Hp, Hrole, Hrid.
  cbv beta iota zeta. rewrite (rooms_get_live _ _ _ Hlive).
  assert (Hin : rid ∈ st.(rooms)) by (unfold live_room in Hlive; case_bool_decide; [done|discriminate]).
  assert (Hh : st.(roomHeap) !! rid = Some room) by (unfold live_room in Hlive; rewrite bool_decide_eq_true_2 in Hlive by exact Hin; exact Hlive).
  cbn [r_viewers set_status]. rewrite bcast_send.
  unfold setTimeout, heap_update, heap_put, p2c_delete, clients_delete, p2c_get, live_room. cbn.
  rewrite lookup_insert_eq. cbn. rewrite bool_decide_eq_true_2 by exact Hin.
  rewrite lookup_insert_eq, lookup_delete_eq, lookup_delete_eq, lookup_insert_eq.
  repeat split; reflexivity.
Qed.

Lemma x_p001_broadcaster_disconnect_witness :
  live_room (Part001.handleDisconnect "s1" part001_setup) "R" =
    Some (set_reconnectTimeout (Some part001_setup.(nextTimer))
            (set_status (JStr "pending_rejoin") p001_room)).
Proof.
  refine (proj1 (x_p001_broadcaster_disconnect part001_setup "s1" p001_bc "bc" "R" p001_room
                   _ _ _ _ _)); wit.
Defined.

(** X2 (part_001, the reconnect timer callback, lines 363-375): when the
    timer fires for a room still in the Map, the room is deleted and no
    other room changes; each viewer that resolves to a connection gets
    "room-closed" and loses its room-index entry; the other index entries,
    the clients and the persistent-id Map are unchanged. *)
Lemma x_reconnect_timer_closes (st : State) (rid : string) (room : Room) :
  st.(roomHeap) !! rid = Some room ->
  let st' := Part001.reconnectTimeoutFired rid st in
  live_room st' rid = None ∧ (∀ r, r ≠ rid -> live_room st' r = live_room st r) ∧
  st'.(outbox) = st.(outbox) ++ notices st room.(r_viewers) (ORoomClosed rid) ∧
  (∀ k, p2r_get st' k = if bool_decide (k ∈ room.(r_viewers) ∧ is_Some (resolve st k))
                        then None else p2r_get st k) ∧
  st'.(clients) = st.(clients) ∧ st'.(persistentIdToClientId) = st.(persistentIdToClientId).
Proof.
  intros Hh st'. subst st'. unfold Part001.reconnectTimeoutFired. rewrite Hh.
  destruct (bcast_close room.(r_viewers) (ORoomClosed rid) st) as [M [E HM]]. rewrite E.
  set (S := with_p2r (with_outbox st (outbox st ++ notices st (r_viewers room) (ORoomClosed rid))) M).
  split; [|split; [|split; [|split; [|split]]]].
  - rewrite (live_room_del S (rooms_delete S rid) rid rid) by reflexivity.
    rewrite bool_decide_eq_true_2 by reflexivity. reflexivity.
  - intros r Hr. rewrite (live_room_del S (rooms_delete S rid) rid r) by reflexivity.
    rewrite bool_decide_eq_false_2 by exact Hr. apply live_room_frame; reflexivity.
  - reflexivity.
  - intros k. apply HM.
  - reflexivity.
  - reflexivity.
Qed.

Lemma x_reconnect_timer_closes_witness :
  live_room (Part001.reconnectTimeoutFired "R" part001_setup) "R" = None.
Proof.
  refine (proj1 (x_reconnect_timer_closes part001_setup "R" p001_room _)); wit.
Defined.



Lemma p001_step_msg (st st' : State) (c : string) (m : Msg) :
  Part001.dispatch c m st = Ok st' -> Part001.step (Running st) (EMessage c m) = Running st'.
Proof. intros E. unfold Part001.step. rewrite E. reflexivity. Qed.

Lemma p001_step_fire (st : State) (t : nat) (tm : Timer) :
  st.(timers) !! t = Some tm -> (tm.(t_due) <= st.(now))%Z ->
  Part001.step (Running st) (EFire t) =
    Running (Part001.fire tm.(t_action) (with_timers st (delete t st.(timers)) st.(nextTimer))).
Proof. intros Ht Hd. unfold Part001.step. rewrite Ht, bool_decide_eq_true_2 by exact Hd. reflexivity. Qed.

Lemma forEach_same {A} (l : list A) (body : State -> A -> State) (st : State) :
  (∀ s a, same_but_outbox s (body s a)) -> same_but_outbox st (forEach l body st).
Proof.
  intros H. unfold forEach. revert st. induction l as [|a l IH]; intros st; cbn.
  - repeat split.
  - destruct (IH (body st a)) as (E1 & E2 & E3 & E4 & E5 & E6).
    destruct (H st a) as (F1 & F2 & F3 & F4 & F5 & F6). repeat split; congruence.
Qed.

Lemma send_same (s : State) (c : string) (m : Out) : same_but_outbox s (send s c m).
Proof. repeat split. Qed.

Lemma p001_bc_disconnect_form (st : State) (c : string) (ci : Client) (p rid : string) (room : Room) :
  st.(clients) !! c = Some ci -> as_truthy ci.(c_persistentId) = Some p ->
  ci.(c_role) = Some Broadcaster -> as_truthy (p2r_get st (Some p)) = Some rid ->
  live_room st rid = Some room ->
  Part001.handleDisconnect c st =
    mkState (delete c st.(clients)) (delete p st.(persistentIdToClientId))
      (<[rid := set_reconnectTimeout (Some st.(nextTimer)) (set_status (JStr "pending_rejoin") room)]> st.(roomHeap))
      st.(rooms) st.(persistentIdToRoomId)
      (<[st.(nextTimer) := mkTimer (st.(now) + Part001.RECONNECT_TIMEOUT_MS) (TReconnect rid)]> st.(timers))
      (S st.(nextTimer)) st.(now)
      (st.(outbox) ++ notices st room.(r_viewers) (OBroadcasterDisconnected rid)).
Proof.
  intros Hc Hp Hrole Hrid Hlive.
  unfold Part001.handleDisconnect. rewrite Hc, Hp, Hrole, Hrid.
  cbv beta iota zeta. rewrite (rooms_get_live _ _ _ Hlive).
  cbn [r_viewers set_status]. rewrite bcast_send.
  unfold setTimeout, heap_update, heap_put, p2c_delete, clients_delete. cbn.
  rewrite lookup_insert_eq. cbn. rewrite insert_insert_eq. reflexivity.
Qed.

(** X8 (part_001, [handleDisconnect], [handleRegistration],
    [handleRejoinRoom] lines 178-225): a broadcaster who closes, registers
    again on another connection and rejoins its room gets the room back
    "active", with no reconnect timer, the same viewers and the pending
    timer cancelled; its persistent id resolves to the new connection. *)
Lemma x_p001_disconnect_rejoin (st : State) (c c2 : string) (ci ci2 : Client) (p u rid : string)
    (room : Room) (n : option string) (pw : jsval) :
  st.(clients) !! c = Some ci -> ci.(c_persistentId) = Some p -> p ≠ "" ->
  ci.(c_role) = Some Broadcaster -> as_truthy (p2r_get st (Some p)) = Some rid ->
  live_room st rid = Some room -> room.(r_broadcasterId) = Some p ->
  c2 ≠ c -> st.(clients) !! c2 = Some ci2 -> u ≠ "" ->
  ∃ st', Part001.run (Running st)
           [EClose c; EMessage c2 (MRegister (Some p) (Some u)); EMessage c2 (MRejoinRoom (Some rid) n pw)]
         = Running st' ∧
    (∃ R', live_room st' rid = Some R' ∧ R'.(r_status) = JStr "active" ∧
           R'.(r_reconnectTimeout) = None ∧ R'.(r_viewers) = room.(r_viewers)) ∧
    st'.(timers) = delete st.(nextTimer) st.(timers) ∧ resolve st' (Some p) = Some c2.
Proof.
  intros Hc Hpid Hp Hrole Hrid Hlive Hbc Hne Hc2 Hu.
  assert (Hpt : as_truthy (Some p) = Some p) by (cbn; rewrite bool_decide_eq_false_2 by exact Hp; reflexivity).
  assert (Hut : as_truthy (Some u) = Some u) by (cbn; rewrite bool_decide_eq_false_2 by exact Hu; reflexivity).
  assert (Hpid' : as_truthy ci.(c_persistentId) = Some p) by (rewrite Hpid; exact Hpt).
  assert (Hin : rid ∈ st.(rooms)) by (unfold live_room in Hlive; case_bool_decide; [done|discriminate]).
  unfold Part001.run. cbn [fold_left].
  change (Part001.step (Running st) (EClose c)) with (Running (Part001.handleDisconnect c st)).
  rewrite (p001_bc_disconnect_form st c ci p rid room Hc Hpid' Hrole Hrid Hlive).
  set (room1 := set_reconnectTimeout (Some st.(nextTimer)) (set_status (JStr "pending_rejoin") room)).
  set (st1 := mkState _ _ _ _ _ _ _ _ _).
  assert (E2 : Part001.dispatch c2 (MRegister (Some p) (Some u)) st1 =
               Ok (handleRegistration c2 ci2 (Some p) (Some u) st1)).
  { unfold Part001.dispatch. cbn. rewrite lookup_delete_ne by congruence. rewrite Hc2. reflexivity. }
  rewrite (p001_step_msg _ _ _ _ E2).
  unfold handleRegistration. rewrite Hpt, Hut.
  set (ci2' := mkClient (Some p) (Some u) ci2.(c_role)).
  set (st2 := send (p2c_set (client_put st1 c2 ci2') p c2) c2 (ORegistered p)).
  assert (E3 : Part001.dispatch c2 (MRejoinRoom (Some rid) n pw) st2 =
               Ok (Part001.handleRejoinRoom c2 ci2' (Some rid) n pw st2)).
  { unfold Part001.dispatch. cbn. rewrite lookup_insert_eq. reflexivity. }
  rewrite (p001_step_msg _ _ _ _ E3).
  assert (G : rooms_get st2 (Some rid) = Some (rid, room1)).
  { unfold rooms_get. cbn. rewrite bool_decide_eq_true_2 by exact Hin. rewrite lookup_insert_eq. reflexivity. }
  unfold Part001.handleRejoinRoom. cbn [c_persistentId ci2']. rewrite Hpt, G.
  rewrite bool_decide_eq_false_2 by (cbn; rewrite Hbc; tauto).
  set (room2 := set_password (js_or pw JNull) (if bool_decide (r_name room1 ≠ n) then set_name n room1 else room1)).
  assert (Ht2 : r_reconnectTimeout room2 = Some st.(nextTimer)) by (unfold room2; case_bool_decide; reflexivity).
  assert (Hv2 : r_viewers room2 = room.(r_viewers)) by (unfold room2; case_bool_decide; reflexivity).
  rewrite Ht2.
  set (room3 := set_status (JStr "active") (set_reconnectTimeout None room2)).
  set (st3 := send (heap_put (clearTimeout (client_put (p2c_set st2 p c2) c2 (set_role (Some Broadcaster) ci2'))
                  st.(nextTimer)) rid room3) c2 (ORoomRejoined (r_id room3) (r_name room3))).
  match goal with |- ∃ st', Running (forEach ?l ?b st3) = Running st' ∧ _ => 
    destruct (forEach_same l b st3) as (F1 & F2 & F3 & F4 & F5 & F6);
    [intros s a; destruct (resolve s a); [case_bool_decide|]; first [apply send_same|repeat split]|];
    set (st' := forEach l b st3) in * end.
  exists st'. split; [reflexivity|]. split; [|split].
  - exists room3. unfold live_room. rewrite F3, F4. cbn. rewrite bool_decide_eq_true_2 by exact Hin.
    rewrite lookup_insert_eq. split; [reflexivity|]. split; [reflexivity|]. split; [reflexivity|].
    exact Hv2.
  - rewrite F6. cbn. rewrite delete_insert_eq. reflexivity.
  - unfold resolve, p2c_get. rewrite F1, F2. cbn. rewrite !lookup_insert_eq. reflexivity.
Qed.

Lemma x_p001_disconnect_rejoin_witness :
  ∃ st', Part001.run (Running p001_with_s2)
           [EClose "s1"; EMessage "s2" (MRegister (Some "bc") (Some "B"));
            EMessage "s2" (MRejoinRoom (Some "R") (Some "X") JUndefined)]
         = Running st' ∧ resolve st' (Some "bc") = Some "s2".
Proof.
  destruct (x_p001_disconnect_rejoin p001_with_s2 "s1" "s2" p001_bc dummy_client "bc" "B" "R" p001_room
              (Some "X") JUndefined
              ltac:(wit) ltac:(wit) ltac:(wit) ltac:(wit) ltac:(wit) ltac:(wit) ltac:(wit) ltac:(wit)
              ltac:(wit) ltac:(wit))
    as (st' & E & _ & _ & Hr).
  exists st'. split; [exact E | exact Hr].
Defined.

Lemma password_or_null_protected (pw : jsval) :
  negb (strict_eq (js_or pw JNull) JNull) = truthy pw.
Proof.
  unfold js_or. destruct (truthy pw) eqn:E; [|reflexivity].
  destruct pw; cbn in E |- *; first [discriminate | reflexivity].
Qed.

Lemma omap_ext_in {A B} (f g : A -> option B) (l : list A) :
  (∀ x, x ∈ l -> f x = g x) -> omap f l = omap g l.
Proof.
  induction l as [|a l IH]; intros H; [reflexivity|]. cbn.
  rewrite (H a) by (left). rewrite IH by (intros x Hx; apply H; right; exact Hx). reflexivity.
Qed.

Lemma roomListEntry_clients (st st' : State) (R : Room) :
  st'.(persistentIdToClientId) = st.(persistentIdToClientId) ->
  (∀ c, c_username <$> st'.(clients) !! c = c_username <$> st.(clients) !! c) ->
  Part001.roomListEntry st' R = Part001.roomListEntry st R.
Proof.
  intros Ep Ec. unfold Part001.roomListEntry, resolve, p2c_get. rewrite Ep.
  destruct (r_broadcasterId R ≫= _) as [c|]; [|reflexivity]. cbn.
  specialize (Ec c).
  destruct (clients st' !! c) eqn:E1; destruct (clients st !! c) eqn:E2; cbn in Ec; try discriminate;
    cbn; rewrite ?E1, ?E2; cbn; [injection Ec as Ec; rewrite Ec; reflexivity|reflexivity].
Qed.

(** X10 (part_001, [handleCreateRoom] lines 145-171 and [handleListRooms]
    lines 230-242): after a room is created under a fresh id, the room list
    is the old list followed by one entry for it: its name, the creator's
    username, no viewers, and [isPasswordProtected] equal to the
    truthiness of the password. The creator becomes its broadcaster and is
    told "room-created". *)
Lemma x_p001_create_room_listed (st : State) (cid : string) (ci : Client) (n : option string)
    (name : string) (pw : jsval) (fresh : string) :
  st.(clients) !! cid = Some ci -> as_truthy n = Some name -> fresh ∉ st.(rooms) ->
  let st' := Part001.handleCreateRoom cid ci n pw fresh st in
  Part001.listRooms st' = Part001.listRooms st ++
    [mkEntry fresh (Some name)
       (resolve st ci.(c_persistentId) ≫= fun c => st.(clients) !! c ≫= c_username)
       0 (Some (truthy pw))] ∧
  p2r_get st' ci.(c_persistentId) = Some fresh ∧
  st'.(clients) !! cid = Some (set_role (Some Broadcaster) ci) ∧
  st'.(outbox) = st.(outbox) ++ [(cid, ORoomCreated fresh name)].
Proof.
  intros Hc Hn Hf st'. subst st'. unfold Part001.handleCreateRoom. rewrite Hn.
  set (R := mkRoom _ _ _ _ _ _ _ _ _).
  assert (Hcl : ∀ c, c_username <$> (<[cid := set_role (Some Broadcaster) ci]> st.(clients)) !! c
                     = c_username <$> st.(clients) !! c).
  { intros c. destruct (decide (c = cid)) as [->|Hne].
    - rewrite lookup_insert_eq, Hc. reflexivity.
    - rewrite lookup_insert_ne by congruence. reflexivity. }
  split; [|split; [|split]].
  - unfold Part001.listRooms, rooms_set. cbn. rewrite (bool_decide_eq_false_2 _ Hf). cbn.
    rewrite omap_app. f_equal.
    + apply omap_ext_in. intros r Hr.
      rewrite lookup_insert_ne by (intros ->; exact (Hf Hr)).
      destruct (roomHeap st !! r); [|reflexivity]. cbn. f_equal.
      apply roomListEntry_clients; [reflexivity|exact Hcl].
    + cbn. rewrite lookup_insert_eq. cbn.
      rewrite (roomListEntry_clients st _ R) by (first [reflexivity|exact Hcl]).
      unfold Part001.roomListEntry. cbn. rewrite password_or_null_protected. reflexivity.
  - unfold p2r_get, rooms_set. cbn. case_bool_decide; apply lookup_insert_eq.
  - cbn. apply lookup_insert_eq.
  - unfold rooms_set. cbn. case_bool_decide; reflexivity.
Qed.

Lemma x_p001_create_room_listed_witness :
  Part001.listRooms (Part001.handleCreateRoom "s1" p001_bc (Some "Y") (JStr "pw") "R2" part001_setup) =
    Part001.listRooms part001_setup ++
    [mkEntry "R2" (Some "Y")
       (resolve part001_setup p001_bc.(c_persistentId) ≫= fun c =>
          part001_setup.(clients) !! c ≫= c_username)
       0 (Some (truthy (JStr "pw")))].
Proof.
  refine (proj1 (x_p001_create_room_listed part001_setup "s1" p001_bc (Some "Y") "Y" (JStr "pw") "R2"
                   _ _ _)); wit.
Defined.

(** X11 (part_001, [handleCreateRoom]): creating a room changes no other
    room, and afterwards the creator controls none of the rooms it
    broadcast before: the room index points it at the new, empty room. *)
Lemma x_p001_create_room_moves_control (st : State) (cid : string) (ci : Client) (n : option string)
    (name : string) (pw : jsval) (fresh : string) :
  as_truthy n = Some name -> fresh ∉ st.(rooms) ->
  let st' := Part001.handleCreateRoom cid ci n pw fresh st in
  (∀ r, r ≠ fresh -> live_room st' r = live_room st r) ∧
  (∀ t, ownedRoomWithViewer st' (set_role (Some Broadcaster) ci) t = None).
Proof.
  intros Hn Hf st'. subst st'. unfold Part001.handleCreateRoom. rewrite Hn.
  split.
  - intros r Hr. unfold live_room, rooms_set. cbn. rewrite (bool_decide_eq_false_2 _ Hf). cbn.
    rewrite lookup_insert_ne by congruence.
    rewrite (bool_decide_ext (r ∈ rooms st ++ [fresh]) (r ∈ rooms st)); [reflexivity|].
    rewrite elem_of_app, list_elem_of_singleton. tauto.
  - intros t. unfold ownedRoomWithViewer, rooms_get, p2r_get, rooms_set. cbn.
    rewrite (bool_decide_eq_false_2 _ Hf). cbn. rewrite lookup_insert_eq.
    rewrite bool_decide_eq_true_2 by (apply elem_of_app; right; apply list_elem_of_singleton; reflexivity).
    rewrite lookup_insert_eq. rewrite bool_decide_eq_false_2 by tauto. reflexivity.
Qed.

Lemma x_p001_create_room_moves_control_witness :
  ownedRoomWithViewer (Part001.handleCreateRoom "s1" p001_bc (Some "Y") JUndefined "R2" part001_setup)
    (set_role (Some Broadcaster) p001_bc) (Some "v") = None.
Proof.
  refine (proj2 (x_p001_create_room_moves_control part001_setup "s1" p001_bc (Some "Y") "Y" JUndefined "R2"
                   _ _) (Some "v")); wit.
Defined.

(** X12 (part_001, [handleLeaveRoom] lines 305-324 and [handleDisconnect]
    lines 330-396): a broadcaster that sends leave-room and then closes
    leaves its room in the Map unchanged, with no reconnect timer and no
    room-index entry of its own: leave-room clears its role, so the close
    takes neither the broadcaster branch nor the viewer branch. *)
Lemma x_broadcaster_leave_orphans_room (st : State) (cid : string) (ci : Client) (p r : string) (room : Room) :
  st.(clients) !! cid = Some ci -> ci.(c_persistentId) = Some p -> p ≠ "" -> ci.(c_role) = Some Broadcaster ->
  p2r_get st (Some p) = Some r -> r ≠ "" -> live_room st r = Some room -> Some p ∉ room.(r_viewers) ->
  ∃ st', Part001.run (Running st) [EMessage cid MLeaveRoom; EClose cid] = Running st' ∧
         live_room st' r = Some room ∧ st'.(timers) = st.(timers) ∧ p2r_get st' (Some p) = None.
Proof.
  intros Hc Hpid Hp Hrole Hr Hrne Hlive Hv.
  assert (Hrt : as_truthy (Some r) = Some r) by (cbn; rewrite bool_decide_eq_false_2 by exact Hrne; reflexivity).
  assert (Hin : r ∈ st.(rooms)) by (unfold live_room in Hlive; case_bool_decide; [done|discriminate]).
  assert (Hkeep : set_viewers (set_delete (Some p) room.(r_viewers)) room = room).
  { unfold set_delete. rewrite filter_all by (intros x Hx ->; exact (Hv Hx)). destruct room; reflexivity. }
  assert (L : ∃ S, handleLeaveRoom cid ci st = S ∧ live_room S r = Some room ∧
                   S.(clients) !! cid = Some (set_role None ci) ∧ S.(timers) = st.(timers) ∧
                   p2r_get S (Some p) = None).
  { unfold handleLeaveRoom. rewrite Hpid, Hr, Hrt, (rooms_get_live _ _ _ Hlive), Hkeep.
    eexists. split; [reflexivity|].
    match goal with |- context [match ?m with Some _ => _ | None => _ end] => destruct m end.
    all: unfold live_room, p2r_get; cbn; rewrite bool_decide_eq_true_2 by exact Hin.
    all: rewrite !lookup_insert_eq, lookup_delete_eq. all: auto. }
  destruct L as (S & ES & L1 & L2 & L3 & L4).
  assert (Hclose : Part001.handleDisconnect cid S = p2c_delete (clients_delete S cid) (Some p)).
  { unfold Part001.handleDisconnect.
    rewrite L2. cbn [c_persistentId c_role set_role]. rewrite Hpid.
    cbn. rewrite bool_decide_eq_false_2 by exact Hp. reflexivity. }
  assert (E1 : Part001.dispatch cid MLeaveRoom st = Ok S) by (unfold Part001.dispatch; rewrite Hc, ES; reflexivity).
  unfold Part001.run. cbn [fold_left]. rewrite (p001_step_msg _ _ _ _ E1).
  change (Part001.step (Running S) (EClose cid)) with (Running (Part001.handleDisconnect cid S)).
  rewrite Hclose. eexists. split; [reflexivity|].
  split; [exact L1|]. split; [exact L3|]. exact L4.
Qed.

Lemma x_broadcaster_leave_orphans_room_witness :
  ∃ st', Part001.run (Running part001_setup) [EMessage "s1" MLeaveRoom; EClose "s1"] = Running st' ∧
         live_room st' "R" = Some p001_room.
Proof.
  destruct (x_broadcaster_leave_orphans_room part001_setup "s1" p001_bc "bc" "R" p001_room
              ltac:(wit) ltac:(wit) ltac:(wit) ltac:(wit) ltac:(wit) ltac:(wit) ltac:(wit) ltac:(wit))
    as (st' & E & L & _).
  exists st'. split; [exact E | exact L].
Defined.

Lemma forEach_rooms {A} (l : list A) (body : State -> A -> State) (st : State) :
  (∀ s a, (body s a).(rooms) = s.(rooms) ∧ (body s a).(roomHeap) = s.(roomHeap)) ->
  (forEach l body st).(rooms) = st.(rooms).
Proof. intros H. exact (proj1 (forEach_frame l body st H)). Qed.

Lemma heap_update_rooms (st : State) (r : string) (f : Room -> Room) :
  (heap_update st r f).(rooms) = st.(rooms).
Proof. unfold heap_update. destruct (roomHeap st !! r); reflexivity. Qed.

Ltac rooms_tac :=
  repeat first [ progress cbn -[forEach heap_update]
               | rewrite heap_update_rooms
               | rewrite forEach_rooms by (intros ? ?; repeat (case_match || case_bool_decide); split; reflexivity)
               | match goal with H : (_, _) = (_, _) |- _ => injection H as <- <- end
               | case_match | case_bool_decide ];
  try reflexivity.

Lemma p001_disconnect_rooms (c : string) (st : State) :
  (Part001.handleDisconnect c st).(rooms) = st.(rooms).
Proof. unfold Part001.handleDisconnect. rooms_tac. Qed.

Lemma p001_dispatch_rooms (c : string) (m : Msg) (st st' : State) :
  Part001.dispatch c m st = Ok st' -> ∀ r, r ∈ st.(rooms) -> r ∈ st'.(rooms).
Proof.
  unfold Part001.dispatch. destruct (clients st !! c) as [ci|];
    [|intros HX; injection HX as <-; auto].
  destruct m; intros HX; try discriminate HX; injection HX as <-; intros r Hr.
  2: { unfold Part001.handleCreateRoom. destruct (as_truthy roomName); [|exact Hr].
       unfold rooms_set. cbn. case_bool_decide; [exact Hr|apply elem_of_app; left; exact Hr]. }
  all: match goal with |- _ ∈ rooms ?S => enough (E : rooms S = rooms st) by (first [rewrite E; assumption | assumption]) end.
  all: unfold handleRegistration, Part001.handleRejoinRoom, Part001.handleListRooms, handleLeaveRoom,
         handleMuteViewer, handleUnmuteViewer, routeP2PMessage, handleKickUser, Part001.handleAnchorMuteStatus.
  all: rooms_tac.
Qed.

(** X13 (part_001, all handlers): no message and no close removes a room
    id from [rooms]; only the firing of a reconnect timer does, and then it
    removes just its own room. *)
Lemma x_p001_rooms_removed_only_by_timer (st st' : State) (e : Event) :
  Part001.step (Running st) e = Running st' ->
  (∀ r, r ∈ st.(rooms) -> r ∈ st'.(rooms)) ∨
  ∃ t tm rid, e = EFire t ∧ st.(timers) !! t = Some tm ∧ tm.(t_action) = TReconnect rid ∧
    ∀ r, r ∈ st.(rooms) -> r ≠ rid -> r ∈ st'.(rooms).
Proof.
  unfold Part001.step. destruct e as [c|c m|c|ms|t].
  - intros HX; injection HX as <-. left. auto.
  - destruct (Part001.dispatch c m st) eqn:E; [intros HX; injection HX as <-|discriminate].
    left. exact (p001_dispatch_rooms c m st st0 E).
  - intros HX; injection HX as <-. left. rewrite p001_disconnect_rooms. auto.
  - intros HX; injection HX as <-. left. auto.
  - destruct (timers st !! t) as [tm|] eqn:Ht; [|intros HX; injection HX as <-; left; auto].
    case_bool_decide; [|intros HX; injection HX as <-; left; auto].
    intros HX; injection HX as <-.
    destruct (t_action tm) as [rid|c] eqn:Ha; cbn [Part001.fire].
    + right. exists t, tm, rid. split; [reflexivity|]. split; [exact Ht|]. split; [exact Ha|].
      intros r Hr Hne. unfold Part001.reconnectTimeoutFired. cbn.
      destruct (roomHeap st !! rid); [|exact Hr].
      unfold rooms_delete. cbn -[forEach]. rewrite list_elem_of_filter.
      rewrite forEach_rooms by (intros ? ?; repeat (case_match || case_bool_decide); split; reflexivity).
      split; [exact Hne|exact Hr].
    + left. rewrite p001_disconnect_rooms. auto.
Qed.

Lemma x_p001_rooms_removed_only_by_timer_witness :
  (∀ r, r ∈ part001_setup.(rooms) -> r ∈ (Part001.handleDisconnect "s1" part001_setup).(rooms)) ∨
  ∃ t tm rid, EClose "s1" = EFire t ∧ part001_setup.(timers) !! t = Some tm ∧
    tm.(t_action) = TReconnect rid ∧
    ∀ r, r ∈ part001_setup.(rooms) -> r ≠ rid -> r ∈ (Part001.handleDisconnect "s1" part001_setup).(rooms).
Proof.
  refine (x_p001_rooms_removed_only_by_timer part001_setup (Part001.handleDisconnect "s1" part001_setup)
            (EClose "s1") _); wit.
Defined.
